(** * Usage tracking and aggregation: fetcher, poller hook and session statistics

  A shallow embedding of

  - [packages/shared/src/auth/claude-usage.ts]   ([fetchClaudeUsage]),
  - the [useClaudeUsage] hook                    ([fetchUsage], the polling effect),
  - [apps/electron/.../analytics/AnalyticsPanel.tsx] (the [stats] memo),

  followed by the properties of the usage engine stated over it.

  Conventions.  A JavaScript [number] that carries a percentage or a delta
  is a rational ([Q]); token counts are integers ([Z]).  [NaN] and the
  infinities are outside the model.  A value that may be [undefined], [null]
  or present is a [JsOpt]; a TypeScript [T | null] result is an [option]. *)

From Stdlib Require Import ZArith QArith Qminmax Qround Lqa Lia.
From Stdlib Require Import List String Bool Permutation Sorted DecimalString.
Import ListNotations.

Local Open Scope Z_scope.

(* ------------------------------------------------------------------ *)
(** ** JavaScript values and operators used by the sources *)

Module Js.

(** The three ways a property read can come out. *)
Inductive JsOpt (A : Type) : Type :=
| Undefined
| Null
| Present (a : A).
Arguments Undefined {A}.
Arguments Null {A}.
Arguments Present {A} a.

(** [x?.f] : property access short-circuiting on a nullish receiver. *)
Definition chain {A B : Type} (x : JsOpt A) (f : A -> JsOpt B) : JsOpt B :=
  match x with
  | Present a => f a
  | Undefined | Null => Undefined
  end.

(** [x ?? d] : nullish coalescing. *)
Definition coalesce {A : Type} (x : JsOpt A) (d : A) : A :=
  match x with
  | Present a => a
  | Undefined | Null => d
  end.

(** [x ?? null] at a result type [T | null]. *)
Definition coalesce_null {A : Type} (x : JsOpt A) : option A :=
  match x with
  | Present a => Some a
  | Undefined | Null => None
  end.

(** [undefined] or [null]: what [??] and [?.] test for. *)
Definition nullish {A : Type} (x : JsOpt A) : bool :=
  match x with
  | Present _ => false
  | Undefined | Null => true
  end.

(** Truthiness of an optional boolean property ([hidden?: boolean]). *)
Definition truthy_flag (x : option bool) : bool :=
  match x with
  | Some b => b
  | None => false
  end.

(** [x || 0] on numbers: [0] is the only falsy number of the model. *)
Definition or0Z (x : Z) : Z := if x =? 0 then 0 else x.
Definition or0Q (x : Q) : Q := if Qeq_bool x 0 then 0%Q else x.

(** The exceptions the modelled code can see. *)
Inductive JsError : Type :=
| FetchRejected (msg : string)   (* [fetch] rejected: DNS, TLS, timeout, reset *)
| UsageApiError (status : Z)     (* [new Error(`Usage API error: ${status}`)] *)
| SyntaxError                    (* [response.json()] on a malformed body *)
| TypeError                      (* property read on [null] *)
| BridgeError (msg : string).    (* the host bridge call rejected *)

(** What a [try] block does: completes normally or throws. *)
Inductive Completion (A : Type) : Type :=
| Normal (a : A)
| Throw (e : JsError).
Arguments Normal {A} a.
Arguments Throw {A} e.

Definition bind {A B : Type} (c : Completion A) (k : A -> Completion B)
  : Completion B :=
  match c with
  | Normal a => k a
  | Throw e => Throw e
  end.

(** Console output, by level. *)
Inductive LogLevel : Type := LvlError | LvlWarn | LvlInfo | LvlDebug.

Record LogEntry : Type := mkLog {
  level : LogLevel;
  tag : string;
  detail : JsError
}.

Definition is_error (e : LogEntry) : bool :=
  match level e with
  | LvlError => true
  | _ => false
  end.

End Js.
Export Js.

Notation "x >>= k" := (Js.bind x k) (at level 50, left associativity).

(* ------------------------------------------------------------------ *)
(** ** The usage fetcher and its normalisation ([claude-usage.ts]) *)

Module ClaudeUsage.

(** Usage data for a time window (normalized for UI). *)
Record UsageWindow : Type := mkUsageWindow {
  utilization : Q;
  resetsAt : option string
}.

(** Raw API response window (snake_case); either field may be missing
    in the JSON that actually arrives. *)
Record ApiUsageWindow : Type := mkApiUsageWindow {
  api_utilization : JsOpt Q;
  resets_at : JsOpt string
}.

(** Response from the usage API (raw).  [seven_day_oauth_apps] is never
    read by the code and is left out. *)
Record ClaudeUsageApiResponse : Type := mkApiResponse {
  five_hour : JsOpt ApiUsageWindow;
  seven_day : JsOpt ApiUsageWindow;
  seven_day_opus : JsOpt ApiUsageWindow
}.

(** Normalized usage data for the UI. *)
Record ClaudeUsageData : Type := mkUsageData {
  fiveHour : UsageWindow;
  sevenDay : UsageWindow;
  sevenDayOpus : option UsageWindow
}.

(** What [response.json()] can give: a rejected promise on a malformed
    body, the JSON value [null], or an object. *)
Inductive Body : Type :=
| MalformedJson
| JsonNull
| JsonObject (data : ClaudeUsageApiResponse).

Record Response : Type := mkResponse {
  status : Z;
  body : Body
}.

(** [response.ok] : the status is in the range 200-299. *)
Definition ok (r : Response) : bool :=
  (200 <=? status r) && (status r <=? 299).

(** What [await fetch(...)] can give: a rejection (DNS, TLS, timeout,
    connection reset) or a response. *)
Inductive FetchOutcome : Type :=
| NetworkError (msg : string)
| Responded (r : Response).

(** [await response.json() as ClaudeUsageApiResponse]: the cast checks
    nothing, so the value may also be [null]. *)
Definition json (r : Response) : Completion (JsOpt ClaudeUsageApiResponse) :=
  match body r with
  | MalformedJson => Throw SyntaxError
  | JsonNull => Normal Null
  | JsonObject data => Normal (Present data)
  end.

(** Lines 71-84: the object literal that normalises the response. *)
Definition normalize (data : ClaudeUsageApiResponse) : ClaudeUsageData :=
  {| fiveHour :=
       {| utilization := coalesce (chain (five_hour data) api_utilization) 0%Q;
          resetsAt := coalesce_null (chain (five_hour data) resets_at) |};
     sevenDay :=
       {| utilization := coalesce (chain (seven_day data) api_utilization) 0%Q;
          resetsAt := coalesce_null (chain (seven_day data) resets_at) |};
     sevenDayOpus :=
       match seven_day_opus data with
       | Present w =>
           Some {| utilization := coalesce (api_utilization w) 0%Q;
                   resetsAt := coalesce_null (resets_at w) |}
       | Undefined | Null => None
       end |}.

(** Lines 71-84 at the value [response.json()] gave: [data.five_hour]
    is a property read on [data] itself and throws when [data] is [null]. *)
Definition normalize_at (data : JsOpt ClaudeUsageApiResponse)
  : Completion ClaudeUsageData :=
  match data with
  | Present d => Normal (normalize d)
  | Undefined | Null => Throw TypeError
  end.

(** Lines 48-84: the body of the [try] block. *)
Definition try_block (o : FetchOutcome) : Completion (option ClaudeUsageData) :=
  match o with
  | NetworkError msg => Throw (FetchRejected msg)
  | Responded response =>
      if negb (ok response) then
        if (status response =? 403) || (status response =? 401) then
          Normal None
        else
          Throw (UsageApiError (status response))
      else
        json response >>= fun data =>
        normalize_at data >>= fun snapshot =>
        Normal (Some snapshot)
  end.

(** [fetchClaudeUsage]: the [try] block with its [catch], which logs
    with [console.error] and returns [null].  The second component is
    what the call wrote to the console. *)
Definition fetchClaudeUsage (o : FetchOutcome)
  : option ClaudeUsageData * list LogEntry :=
  match try_block o with
  | Normal v => (v, [])
  | Throw e =>
      (None, [mkLog LvlError "[claude-usage] Failed to fetch usage:" e])
  end.

(** The outcome classes of the fetcher's callers. *)

(** The transport failed: [fetch] rejected, or a success response
    carried a body that is not JSON. *)
Definition transport_failure (o : FetchOutcome) : bool :=
  match o with
  | NetworkError _ => true
  | Responded r =>
      ok r && match body r with MalformedJson => true | _ => false end
  end.

(** A non-success status other than 401 and 403. *)
Definition other_http_error (o : FetchOutcome) : bool :=
  match o with
  | NetworkError _ => false
  | Responded r =>
      negb (ok r) && negb (status r =? 401) && negb (status r =? 403)
  end.

(** Status 401 or 403. *)
Definition not_eligible (o : FetchOutcome) : bool :=
  match o with
  | NetworkError _ => false
  | Responded r => (status r =? 401) || (status r =? 403)
  end.

(** A success status with a JSON object as body. *)
Definition success_payload (o : FetchOutcome) : option ClaudeUsageApiResponse :=
  match o with
  | NetworkError _ => None
  | Responded r =>
      if ok r then
        match body r with JsonObject data => Some data | _ => None end
      else None
  end.

(** How one raw window relates to its normalised form: a nullish field
    takes its default, a present one is carried over. *)
Definition window_of (w : ApiUsageWindow) (u : UsageWindow) : Prop :=
  (nullish (api_utilization w) = true -> utilization u = 0%Q) /\
  (forall q, api_utilization w = Present q -> utilization u = q) /\
  (nullish (resets_at w) = true -> resetsAt u = None) /\
  (forall t, resets_at w = Present t -> resetsAt u = Some t).

(** The payload of the spec's example, and one with every optional part
    missing. *)
Definition example_payload : ClaudeUsageApiResponse :=
  {| five_hour := Present {| api_utilization := Present 42%Q;
                             resets_at := Present "T"%string |};
     seven_day := Present {| api_utilization := Present 0%Q;
                             resets_at := Null |};
     seven_day_opus := Undefined |}.

Definition empty_payload : ClaudeUsageApiResponse :=
  {| five_hour := Undefined; seven_day := Undefined;
     seven_day_opus := Undefined |}.

Definition success (data : ClaudeUsageApiResponse) : FetchOutcome :=
  Responded {| status := 200; body := JsonObject data |}.

End ClaudeUsage.
Export ClaudeUsage.

(* ------------------------------------------------------------------ *)
(** ** The polling hook ([useClaudeUsage]) *)

Module UseClaudeUsage.

Definition POLL_INTERVAL_MS : Z := 60 * 1000.

(** A [setInterval] handle of the renderer: a positive integer, so a
    held handle is always truthy in [if (pollIntervalRef.current)]. *)
Definition Handle : Type := positive.

(** What [await window.electronAPI.getClaudeUsage()] can give. *)
Inductive BridgeOutcome : Type :=
| Resolved (data : option ClaudeUsageData)
| Rejected (e : JsError).

(** Modelled from the spec: the host bridge behind
    [window.electronAPI.getClaudeUsage] is not among the sources.  The
    network call is proxied through the host process, so the renderer
    receives what [fetchClaudeUsage] returned there; its console output
    is kept alongside. *)
Definition getClaudeUsage (o : FetchOutcome) : BridgeOutcome * list LogEntry :=
  let (data, out) := fetchClaudeUsage o in (Resolved data, out).

(** The hook's three state cells and its ref, together with the part of
    the environment the hook acts on: the intervals that are set and not
    cleared, the calls of [fetchUsage] that are suspended at their
    [await], the number of bridge calls made so far, and the console. *)
Record Hook : Type := mkHook {
  usage : option ClaudeUsageData;
  isLoading : bool;
  isAvailable : bool;
  pollIntervalRef : option Handle;
  intervals : list Handle;
  nextHandle : Handle;
  inFlight : nat;
  requests : nat;
  console : list LogEntry
}.

(** Lines 29-32: [useState(null)], [useState(true)], [useState(false)],
    [useRef(null)]. *)
Definition initial : Hook :=
  {| usage := None; isLoading := true; isAvailable := false;
     pollIntervalRef := None;
     intervals := []; nextHandle := 1%positive;
     inFlight := 0; requests := 0; console := [] |}.

Definition setUsage (v : option ClaudeUsageData) (h : Hook) : Hook :=
  {| usage := v; isLoading := isLoading h; isAvailable := isAvailable h;
     pollIntervalRef := pollIntervalRef h; intervals := intervals h;
     nextHandle := nextHandle h; inFlight := inFlight h;
     requests := requests h; console := console h |}.

Definition setIsLoading (v : bool) (h : Hook) : Hook :=
  {| usage := usage h; isLoading := v; isAvailable := isAvailable h;
     pollIntervalRef := pollIntervalRef h; intervals := intervals h;
     nextHandle := nextHandle h; inFlight := inFlight h;
     requests := requests h; console := console h |}.

Definition setIsAvailable (v : bool) (h : Hook) : Hook :=
  {| usage := usage h; isLoading := isLoading h; isAvailable := v;
     pollIntervalRef := pollIntervalRef h; intervals := intervals h;
     nextHandle := nextHandle h; inFlight := inFlight h;
     requests := requests h; console := console h |}.

Definition setRef (v : option Handle) (h : Hook) : Hook :=
  {| usage := usage h; isLoading := isLoading h; isAvailable := isAvailable h;
     pollIntervalRef := v; intervals := intervals h;
     nextHandle := nextHandle h; inFlight := inFlight h;
     requests := requests h; console := console h |}.

Definition console_error (es : list LogEntry) (h : Hook) : Hook :=
  {| usage := usage h; isLoading := isLoading h; isAvailable := isAvailable h;
     pollIntervalRef := pollIntervalRef h; intervals := intervals h;
     nextHandle := nextHandle h; inFlight := inFlight h;
     requests := requests h; console := console h ++ es |}.

(** [setInterval(fetchUsage, POLL_INTERVAL_MS)]: a fresh handle, now active. *)
Definition setInterval (h : Hook) : Handle * Hook :=
  (nextHandle h,
   {| usage := usage h; isLoading := isLoading h; isAvailable := isAvailable h;
      pollIntervalRef := pollIntervalRef h;
      intervals := intervals h ++ [nextHandle h];
      nextHandle := Pos.succ (nextHandle h); inFlight := inFlight h;
      requests := requests h; console := console h |}).

(** [clearInterval(t)]. *)
Definition clearInterval (t : Handle) (h : Hook) : Hook :=
  {| usage := usage h; isLoading := isLoading h; isAvailable := isAvailable h;
     pollIntervalRef := pollIntervalRef h;
     intervals := filter (fun x => negb (Pos.eqb x t)) (intervals h);
     nextHandle := nextHandle h; inFlight := inFlight h;
     requests := requests h; console := console h |}.

(** [fetchUsage], up to its [await] (line 37): the bridge is called and
    the call is suspended. *)
Definition fetchUsage_call (h : Hook) : Hook :=
  {| usage := usage h; isLoading := isLoading h; isAvailable := isAvailable h;
     pollIntervalRef := pollIntervalRef h; intervals := intervals h;
     nextHandle := nextHandle h; inFlight := S (inFlight h);
     requests := S (requests h); console := console h |}.

(** [fetchUsage], from its [await] on (lines 38-46): the [try]
    continuation, the [catch] and the [finally]. *)
Definition fetchUsage_resume (b : BridgeOutcome) (h : Hook) : Hook :=
  let h1 :=
    match b with
    | Resolved data =>
        setIsAvailable (match data with Some _ => true | None => false end)
          (setUsage data h)
    | Rejected error =>
        setIsAvailable false
          (setUsage None
             (console_error
                [mkLog LvlError "[useClaudeUsage] Failed to fetch usage:" error]
                h))
    end in
  setIsLoading false h1.

Definition settled (h : Hook) : Hook :=
  {| usage := usage h; isLoading := isLoading h; isAvailable := isAvailable h;
     pollIntervalRef := pollIntervalRef h; intervals := intervals h;
     nextHandle := nextHandle h; inFlight := pred (inFlight h);
     requests := requests h; console := console h |}.

(** Lines 56-60: the effect body (the poller's start). *)
Definition effect (h : Hook) : Hook :=
  let h1 := fetchUsage_call h in
  let (t, h2) := setInterval h1 in
  setRef (Some t) h2.

(** Lines 62-67: the effect's cleanup (the poller's stop). *)
Definition cleanup (h : Hook) : Hook :=
  match pollIntervalRef h with
  | Some t => setRef None (clearInterval t h)
  | None => h
  end.

(** Lines 50-52: [refresh]. *)
Definition refresh (h : Hook) : Hook := fetchUsage_call h.

(** What can happen to a hook instance. *)
Inductive Event : Type :=
| Start                        (* the effect body runs *)
| Stop                         (* the cleanup runs *)
| Tick (t : Handle)            (* interval [t] fires *)
| Refresh                      (* [refresh()] is called *)
| Settle (b : BridgeOutcome).  (* a suspended [fetchUsage] resumes *)

(** One event; [None] when it cannot happen in [h]: a cleared interval
    does not fire, and nothing resumes when no call is suspended. *)
Definition step (e : Event) (h : Hook) : option Hook :=
  match e with
  | Start => Some (effect h)
  | Stop => Some (cleanup h)
  | Tick t =>
      if existsb (Pos.eqb t) (intervals h) then Some (fetchUsage_call h)
      else None
  | Refresh => Some (refresh h)
  | Settle b =>
      match inFlight h with
      | O => None
      | S _ => Some (fetchUsage_resume b (settled h))
      end
  end.

Fixpoint run (es : list Event) (h : Hook) : option Hook :=
  match es with
  | [] => Some h
  | e :: es' =>
      match step e h with
      | Some h' => run es' h'
      | None => None
      end
  end.


(** One whole fetch cycle against the network outcome [o]: [fetchUsage]
    is called, the bridge call runs, and the call resumes with what the
    bridge hands over. *)
Definition cycle (o : FetchOutcome) (h : Hook) : Hook :=
  let (b, out) := getClaudeUsage o in
  fetchUsage_resume b (settled (console_error out (fetchUsage_call h))).

(** What a settled bridge call leaves in the snapshot cell. *)
Definition snapshot_of (b : BridgeOutcome) : option ClaudeUsageData :=
  match b with
  | Resolved data => data
  | Rejected _ => None
  end.

Definition is_some {A : Type} (x : option A) : bool :=
  match x with
  | Some _ => true
  | None => false
  end.





Definition is_settle (e : Event) : bool :=
  match e with
  | Settle _ => true
  | _ => false
  end.



Definition busy_trace : list Event :=
  [Start; Settle (Rejected (BridgeError "ipc")); Tick 1%positive; Refresh;
   Settle (Resolved None)].

(** A hook that has completed one successful cycle: it holds the
    snapshot of [example_payload] and reports availability. *)
Definition eligible_hook : Hook := cycle (success example_payload) initial.

End UseClaudeUsage.
Export UseClaudeUsage.

(* ------------------------------------------------------------------ *)
(** ** The session statistics ([AnalyticsPanel], the [stats] memo) *)

Module Analytics.

(** Modelled from the spec: the declaration of the per-session usage
    delta is not among the sources (spec, data model:
    [SessionUsageDelta]). *)
Record SessionUsageDelta : Type := mkDelta {
  fiveHourDelta : Q;
  sevenDayDelta : Q;
  sevenDayOpusDelta : option Q
}.

(** Modelled from the spec: the declaration of the per-session token
    usage is not among the sources (spec, data model:
    [SessionTokenUsage]). *)
Record SessionTokenUsage : Type := mkTokenUsage {
  inputTokens : Z;
  outputTokens : Z;
  totalTokens : Z;
  contextTokens : Z;
  costUsd : Q;
  usageDelta : option SessionUsageDelta
}.

(** Modelled from the spec: the declaration of [SessionMeta] is not among
    the sources; these are the fields the statistics read, a session
    being optionally flagged hidden and optionally carrying token usage. *)
Record SessionMeta : Type := mkSession {
  id : string;
  hidden : option bool;
  tokenUsage : option SessionTokenUsage
}.

(** [sessionMetaMap]: a [Map] from session id to session, in insertion
    order. *)
Definition SessionMetaMap : Type := list (string * SessionMeta).

(** [Array.from(sessionMetaMap.values())]. *)
Definition values (m : SessionMetaMap) : list SessionMeta := map snd m.

(** The four [let] accumulators of lines 218-221. *)
Record Totals : Type := mkTotals {
  accFiveHourDelta : Q;
  accSevenDayDelta : Q;
  accTokens : Z;
  accSessionsWithUsage : nat
}.

(** Lines 224-231: the body of the [for ... of] loop. *)
Definition loop_body (acc : Totals) (session : SessionMeta) : Totals :=
  match tokenUsage session with
  | Some tu =>
      let tokens := accTokens acc + or0Z (totalTokens tu) in
      match usageDelta tu with
      | Some d =>
          {| accFiveHourDelta :=
               (accFiveHourDelta acc + or0Q (fiveHourDelta d))%Q;
             accSevenDayDelta :=
               (accSevenDayDelta acc + or0Q (sevenDayDelta d))%Q;
             accTokens := tokens;
             accSessionsWithUsage := S (accSessionsWithUsage acc) |}
      | None =>
          {| accFiveHourDelta := accFiveHourDelta acc;
             accSevenDayDelta := accSevenDayDelta acc;
             accTokens := tokens;
             accSessionsWithUsage := accSessionsWithUsage acc |}
      end
  | None => acc
  end.

(** [s.tokenUsage?.usageDelta], read for its truthiness. *)
Definition hasUsageDelta (s : SessionMeta) : bool :=
  match tokenUsage s with
  | Some tu => match usageDelta tu with Some _ => true | None => false end
  | None => false
  end.

(** [s.tokenUsage?.usageDelta?.fiveHourDelta ?? 0]. *)
Definition fiveHourDeltaOr0 (s : SessionMeta) : Q :=
  match tokenUsage s with
  | Some tu =>
      match usageDelta tu with
      | Some d => fiveHourDelta d
      | None => 0%Q
      end
  | None => 0%Q
  end.

(** Lines 237-241: the comparison function handed to [sort]. *)
Definition compareFn (a b : SessionMeta) : Q :=
  let aDelta := fiveHourDeltaOr0 a in
  let bDelta := fiveHourDeltaOr0 b in
  (bDelta - aDelta)%Q.

(** [Array.prototype.sort(compareFn)].  The language fixes the result
    for a consistent comparison function: the sort is stable, and [a]
    comes after [b] exactly when [compareFn(a, b) > 0].  It is written
    here as the stable insertion sort. *)
Definition isPositive (q : Q) : bool := negb (Qle_bool q 0).

Fixpoint sort_insert {A : Type} (cmp : A -> A -> Q) (x : A) (l : list A)
  : list A :=
  match l with
  | [] => [x]
  | y :: l' =>
      if isPositive (cmp x y) then y :: sort_insert cmp x l'
      else x :: y :: l'
  end.

Definition sort {A : Type} (cmp : A -> A -> Q) (l : list A) : list A :=
  fold_right (sort_insert cmp) [] l.

(** [Array.prototype.slice(0, n)]. *)
Definition slice0 {A : Type} (n : nat) (l : list A) : list A := firstn n l.

Module AggregateStats.
Record t : Type := mk {
  totalSessions : nat;
  sessionsWithUsage : nat;
  totalFiveHourDelta : Q;
  totalSevenDayDelta : Q;
  totalTokens : Z;
  topSessions : list SessionMeta
}.
End AggregateStats.

(** Lines 215-252: the [stats] memo. *)
Definition stats (sessionMetaMap : SessionMetaMap) : AggregateStats.t :=
  let sessions :=
    filter (fun s => negb (truthy_flag (hidden s))) (values sessionMetaMap) in
  let acc :=
    fold_left loop_body sessions
      {| accFiveHourDelta := 0%Q; accSevenDayDelta := 0%Q;
         accTokens := 0; accSessionsWithUsage := 0%nat |} in
  let sortedSessions :=
    slice0 10 (sort compareFn (filter hasUsageDelta sessions)) in
  {| AggregateStats.totalSessions := List.length sessions;
     AggregateStats.sessionsWithUsage := accSessionsWithUsage acc;
     AggregateStats.totalFiveHourDelta := accFiveHourDelta acc;
     AggregateStats.totalSevenDayDelta := accSevenDayDelta acc;
     AggregateStats.totalTokens := accTokens acc;
     AggregateStats.topSessions := sortedSessions |}.

(** The sessions that are candidates for the ranking: not hidden and
    carrying a usage delta. *)
Definition ranked (s : SessionMeta) : bool :=
  negb (truthy_flag (hidden s)) && hasUsageDelta s.



(** Sessions used as examples: a visible session with a given five-hour
    delta, a visible session without usage delta, and a hidden session
    that carries both token usage and a usage delta. *)
Definition session_with (name : string) (d5 : Q) : SessionMeta :=
  {| id := name; hidden := None;
     tokenUsage :=
       Some {| inputTokens := 10; outputTokens := 5; totalTokens := 15;
               contextTokens := 0; costUsd := 0%Q;
               usageDelta :=
                 Some {| fiveHourDelta := d5; sevenDayDelta := 1%Q;
                         sevenDayOpusDelta := None |} |} |}.

Definition session_without_delta (name : string) : SessionMeta :=
  {| id := name; hidden := Some false;
     tokenUsage :=
       Some {| inputTokens := 1; outputTokens := 1; totalTokens := 2;
               contextTokens := 0; costUsd := 0%Q; usageDelta := None |} |}.

Definition hidden_session : SessionMeta :=
  {| id := "h"; hidden := Some true;
     tokenUsage :=
       Some {| inputTokens := 100; outputTokens := 100; totalTokens := 200;
               contextTokens := 0; costUsd := 1%Q;
               usageDelta :=
                 Some {| fiveHourDelta := 99%Q; sevenDayDelta := 50%Q;
                         sevenDayOpusDelta := Some 7%Q |} |} |}.

Definition entry (s : SessionMeta) : string * SessionMeta := (id s, s).

(** Twelve sessions with distinct deltas. *)
Definition twelve_sessions : SessionMetaMap :=
  map entry
    [session_with "a" 3; session_with "b" 11; session_with "c" 7;
     session_with "d" 1; session_with "e" 12; session_with "f" 5;
     session_with "g" 9; session_with "h" 2; session_with "i" 10;
     session_with "j" 4; session_with "k" 8; session_with "l" 6]%Q.

(** Sessions with equal deltas, written in differing forms, next to a
    session without delta and a hidden one. *)
Definition tied_sessions : SessionMetaMap :=
  map entry
    [session_with "p" 2; session_without_delta "q"; session_with "r" (5 # 2);
     hidden_session; session_with "s" (4 # 2); session_with "t" (10 # 4)]%Q.

End Analytics.
Export Analytics.

(* ------------------------------------------------------------------ *)
(** ** What the panels display ([UsagePanel], [AnalyticsPanel],
       [SessionDetailPanel], [AnalyticsSessionDetailPage]) *)

Module Display.

(** A number on the integer paths of the date helpers: millisecond
    timestamps and what is computed from them.  [getTime()] of an invalid
    date is [NaN], and [NaN] then runs through the arithmetic. *)
Inductive JsInt : Type :=
| NaN
| Int (z : Z).

(** [a - b]. *)
Definition minus (a b : JsInt) : JsInt :=
  match a, b with
  | Int x, Int y => Int (x - y)
  | _, _ => NaN
  end.

(** [a <= k], [a < k], [a > k], [a === k]: false on [NaN]. *)
Definition le_num (a : JsInt) (k : Z) : bool :=
  match a with Int x => x <=? k | NaN => false end.

Definition lt_num (a : JsInt) (k : Z) : bool :=
  match a with Int x => x <? k | NaN => false end.

Definition gt_num (a : JsInt) (k : Z) : bool :=
  match a with Int x => k <? x | NaN => false end.

Definition eq_num (a : JsInt) (k : Z) : bool :=
  match a with Int x => x =? k | NaN => false end.

(** [Math.floor(a / k)] for a positive constant [k]. *)
Definition floor_div (a : JsInt) (k : Z) : JsInt :=
  match a with Int x => Int (x / k) | NaN => NaN end.

(** [a % k]: the remainder takes the sign of the dividend. *)
Definition remainder (a : JsInt) (k : Z) : JsInt :=
  match a with Int x => Int (Z.rem x k) | NaN => NaN end.

(** An integer in a template literal. *)
Definition show_Z (z : Z) : string := NilZero.string_of_int (Z.to_int z).

Definition show (a : JsInt) : string :=
  match a with Int x => show_Z x | NaN => "NaN" end.

(** [Math.round(q)]: the nearest integer, a tie going up. *)
Definition Math_round (q : Q) : Z := Qfloor (q + (1 # 2)).

(** A string read for its truthiness: the empty string is falsy. *)
Definition truthy_string (s : string) : bool :=
  match s with EmptyString => false | String _ _ => true end.

(** [formatTimeUntilReset] ([UsagePanel.tsx] lines 23-45, and the same
    text in [AnalyticsPanel.tsx] lines 24-46).  [getTime] stands for
    [new Date(resetsAt).getTime()], [now] for [new Date().getTime()]. *)
Definition formatTimeUntilReset
    (getTime : string -> JsInt) (now : Z) (resetsAt : option string) : string :=
  match resetsAt with
  | None => ""
  | Some r =>
      if negb (truthy_string r) then "" else
      let diffMs := minus (getTime r) (Int now) in
      if le_num diffMs 0 then "resets soon" else
      let diffMinutes := floor_div diffMs (1000 * 60) in
      let diffHours := floor_div diffMs (1000 * 60 * 60) in
      let diffDays := floor_div diffMs (1000 * 60 * 60 * 24) in
      if gt_num diffDays 0 then
        let remainingHours := remainder diffHours 24 in
        if gt_num remainingHours 0
        then show diffDays ++ "d " ++ show remainingHours ++ "h"
        else show diffDays ++ "d"
      else if gt_num diffHours 0 then
        let remainingMinutes := remainder diffMinutes 60 in
        if gt_num remainingMinutes 0
        then show diffHours ++ "h " ++ show remainingMinutes ++ "m"
        else show diffHours ++ "h"
      else show diffMinutes ++ "m"
  end.

(** [formatDate] ([AnalyticsPanel.tsx] lines 81-90).  [locale] stands
    for [toLocaleDateString('en-US', ...)] of the timestamp. *)
Definition formatDate (locale : Z -> string) (now : Z) (timestamp : Z) : string :=
  let diffDays := floor_div (minus (Int now) (Int timestamp))
                            (1000 * 60 * 60 * 24) in
  if eq_num diffDays 0 then "Today"
  else if eq_num diffDays 1 then "Yesterday"
  else if lt_num diffDays 7 then show diffDays ++ "d ago"
  else locale timestamp.

(** [formatRelativeDate] ([SessionDetailPanel.tsx] lines 57-74); the
    timestamp may be [undefined], and [0] is falsy as well. *)
Definition formatRelativeDate
    (locale : Z -> string) (now : Z) (timestamp : option Z) : string :=
  match timestamp with
  | None => "—"
  | Some ts =>
      if ts =? 0 then "—" else
      let diffMs := minus (Int now) (Int ts) in
      let diffMinutes := floor_div diffMs (1000 * 60) in
      let diffHours := floor_div diffMs (1000 * 60 * 60) in
      let diffDays := floor_div diffMs (1000 * 60 * 60 * 24) in
      if lt_num diffMinutes 1 then "Just now"
      else if lt_num diffMinutes 60 then show diffMinutes ++ "m ago"
      else if lt_num diffHours 24 then show diffHours ++ "h ago"
      else if eq_num diffDays 1 then "Yesterday"
      else if lt_num diffDays 7 then show diffDays ++ "d ago"
      else locale ts
  end.

(** [getUtilizationColor] ([UsagePanel.tsx] lines 50-54, and the same
    text in [AnalyticsPanel.tsx] lines 51-55). *)
Definition getUtilizationColor (utilization : Q) : string :=
  if Qle_bool 95 utilization then "bg-destructive"
  else if Qle_bool 80 utilization then "bg-info"
  else "bg-accent".

(** [getUtilizationTextColor] ([UsagePanel.tsx] lines 59-63). *)
Definition getUtilizationTextColor (utilization : Q) : string :=
  if Qle_bool 95 utilization then "text-destructive"
  else if Qle_bool 80 utilization then "text-info"
  else "text-foreground/60".

(** [formatDelta] of [AnalyticsPanel.tsx] (lines 73-76). *)
Definition formatDelta (delta : Q) : string :=
  if Qeq_bool delta 0 then "0%"
  else "+" ++ show_Z (Math_round delta) ++ "%".

(** What one [UsageBar] of [UsagePanel.tsx] (lines 72-106) puts on the
    screen: the two colour classes, the width of the bar in percent, the
    percentage text and the reset line of the tooltip. *)
Record UsageBarView : Type := mkBar {
  barLabel : string;
  colorClass : string;
  textColorClass : string;
  widthPercent : Q;
  percentText : string;
  timeUntilReset : string
}.

Definition UsageBar (getTime : string -> JsInt) (now : Z)
    (label : string) (w : UsageWindow) : UsageBarView :=
  {| barLabel := label;
     colorClass := getUtilizationColor (utilization w);
     textColorClass := getUtilizationTextColor (utilization w);
     widthPercent := Qmin (utilization w) 100;
     percentText := show_Z (Math_round (utilization w)) ++ "%";
     timeUntilReset := formatTimeUntilReset getTime now (resetsAt w) |}.

(** What [UsagePanel] (lines 108-141) renders from the hook's result. *)
Inductive UsagePanelView : Type :=
| RendersNothing
| Skeleton
| Bars (bars : list UsageBarView).

Definition UsagePanel (getTime : string -> JsInt) (now : Z) (h : Hook)
  : UsagePanelView :=
  if negb (isAvailable h) && negb (isLoading h) then RendersNothing
  else if isLoading h && negb (is_some (usage h)) then RendersNothing
  else
    match usage h with
    | None => Skeleton
    | Some u =>
        Bars [UsageBar getTime now "5h" (fiveHour u);
              UsageBar getTime now "Week" (sevenDay u)]
    end.

(** What [AnalyticsPanel] (lines 254-375) renders: the "Subscription
    Required" screen, or the dashboard with the windows of its "Current
    Usage" section when [usage] is set, the statistics, and whether the
    empty state replaces the list of top sessions. *)
Inductive AnalyticsView : Type :=
| SubscriptionRequired
| Dashboard (currentUsage : option (list (string * UsageWindow)))
            (summary : AggregateStats.t)
            (emptyState : bool).

Definition AnalyticsPanel (h : Hook) (sessionMetaMap : SessionMetaMap)
  : AnalyticsView :=
  if negb (isAvailable h) && negb (isLoading h) then SubscriptionRequired
  else
    Dashboard
      (match usage h with
       | None => None
       | Some u =>
           Some ([("5-Hour"%string, fiveHour u); ("Weekly"%string, sevenDay u)]
                 ++ match sevenDayOpus u with
                    | Some o => [("Opus"%string, o)]
                    | None => []
                    end)
       end)
      (stats sessionMetaMap)
      (Nat.eqb (List.length (AggregateStats.topSessions (stats sessionMetaMap))) 0).

(** [sessionMetaMap.get(sessionId)]: the entry stored under the key. *)
Fixpoint Map_get (key : string) (m : SessionMetaMap) : option SessionMeta :=
  match m with
  | [] => None
  | (k, s) :: m' => if String.eqb k key then Some s else Map_get key m'
  end.

(** [AnalyticsSessionDetailPage] (lines 18-34): the [session] it hands
    to [SessionDetailPanel], [sessionMetaMap.get(sessionId) ?? null]. *)
Definition AnalyticsSessionDetailPage
    (sessionMetaMap : SessionMetaMap) (sessionId : string) : option SessionMeta :=
  Map_get sessionId sessionMetaMap.

(** The parts of [SessionDetailPanel] (lines 111-199) that are rendered
    conditionally. *)
Record DetailSections : Type := mkSections {
  tokenSection : bool;
  contextRow : bool;
  costSection : bool;
  subscriptionSection : bool;
  opusRow : bool;
  noTokenMessage : bool
}.

Definition positiveQ (q : Q) : bool := negb (Qle_bool q 0).

(** [SessionDetailPanel]: [None] is the "Select a session" empty state
    of lines 96-109. *)
Definition SessionDetailPanel (session : option SessionMeta)
  : option DetailSections :=
  match session with
  | None => None
  | Some s =>
      let tu := tokenUsage s in
      let delta := match tu with Some t => usageDelta t | None => None end in
      let subscription :=
        match delta with
        | Some d =>
            positiveQ (fiveHourDelta d) || positiveQ (sevenDayDelta d)
        | None => false
        end in
      Some
        {| tokenSection := is_some tu;
           contextRow :=
             match tu with Some t => 0 <? contextTokens t | None => false end;
           costSection :=
             match tu with Some t => positiveQ (costUsd t) | None => false end;
           subscriptionSection := subscription;
           opusRow :=
             subscription &&
             match delta with
             | Some d =>
                 match sevenDayOpusDelta d with
                 | Some o => positiveQ o
                 | None => false
                 end
             | None => false
             end;
           noTokenMessage := negb (is_some tu) |}
  end.

(** The map is keyed by session id, each key once. *)
Definition keyed_by_id (m : SessionMetaMap) : Prop :=
  NoDup (map fst m) /\ Forall (fun e => fst e = id (snd e)) m.

(** The sum of the [totalTokens] of the sessions that carry token usage. *)
Definition tokensOf (s : SessionMeta) : Z :=
  match tokenUsage s with
  | Some tu => totalTokens tu
  | None => 0
  end.

Definition sumZ (l : list Z) : Z := fold_right Z.add 0 l.

Definition visible (s : SessionMeta) : bool := negb (truthy_flag (hidden s)).

End Display.
Export Display.

(* ------------------------------------------------------------------ *)
(** ** Measures on event traces of the hook *)

Module Traces.

(** The events that call [fetchUsage]. *)
Definition is_call (e : Event) : bool :=
  match e with
  | Start | Tick _ | Refresh => true
  | Stop | Settle _ => false
  end.

(** The outcome of the last settlement of a trace, if any. *)
Fixpoint last_settle (acc : option BridgeOutcome) (es : list Event)
  : option BridgeOutcome :=
  match es with
  | [] => acc
  | Settle b :: es' => last_settle (Some b) es'
  | _ :: es' => last_settle acc es'
  end.


(** The availability flag mirrors the snapshot cell, and nothing is
    stored while the loading flag is still up. *)
Definition snapshot_flags (h : Hook) : Prop :=
  isAvailable h = is_some (usage h) /\
  (isLoading h = true -> usage h = None).


(** Traces used as examples: two calls in flight that settle in turn,
    and an effect body run twice without cleanup. *)
Definition overlap_trace : list Event :=
  [Start; Refresh;
   Settle (Resolved (Some (normalize example_payload)));
   Settle (Resolved None)].


End Traces.
Export Traces.

(* ================================================================== *)
(** * Properties *)

(* ------------------------------------------------------------------ *)
(** ** The fetcher and its normalisation *)

Section Normalisation.

Lemma window_of_present (w : ApiUsageWindow) :
  window_of w {| utilization := coalesce (api_utilization w) 0%Q;
                 resetsAt := coalesce_null (resets_at w) |}.
Proof.
  unfold window_of; simpl.
  repeat split; intros.
  - destruct (api_utilization w); simpl in *; try reflexivity; discriminate.
  - rewrite H; reflexivity.
  - destruct (resets_at w); simpl in *; try reflexivity; discriminate.
  - rewrite H; reflexivity.
Qed.

Lemma success_payload_inv (o : FetchOutcome) (data : ClaudeUsageApiResponse) :
  success_payload o = Some data ->
  exists r, o = Responded r /\ ok r = true /\ body r = JsonObject data.
Proof.
  destruct o as [msg | r]; simpl; [discriminate |].
  destruct (ok r) eqn:Hok; [| discriminate].
  destruct (body r) eqn:Hb; try discriminate.
  intros [= ->]. exists r; auto.
Qed.

Lemma try_block_success (o : FetchOutcome) (data : ClaudeUsageApiResponse) :
  success_payload o = Some data ->
  try_block o = Normal (Some (normalize data)).
Proof.
  intros H. destruct (success_payload_inv _ _ H) as (r & -> & Hok & Hb).
  unfold try_block, json. rewrite Hok, Hb. reflexivity.
Qed.

(** C4.  For a success payload the fetcher does not throw and returns the
    normalised snapshot, in which a missing (or null) [utilization] has
    become [0] and a missing or null [resets_at] has become absent, in
    each window that is present; and the snapshot has a [sevenDayOpus]
    window exactly when [seven_day_opus] is present and non-null in the
    input: otherwise the field holds no window at all, not a zeroed one. *)
Theorem normalize_defaults_and_opus
    (o : FetchOutcome) (data : ClaudeUsageApiResponse) :
  success_payload o = Some data ->
  exists snap : ClaudeUsageData,
    try_block o = Normal (Some snap) /\
    fetchClaudeUsage o = (Some snap, []) /\
    (forall w, five_hour data = Present w -> window_of w (fiveHour snap)) /\
    (forall w, seven_day data = Present w -> window_of w (sevenDay snap)) /\
    (forall w, seven_day_opus data = Present w ->
       exists u, sevenDayOpus snap = Some u /\ window_of w u) /\
    (nullish (seven_day_opus data) = true -> sevenDayOpus snap = None) /\
    (is_some (sevenDayOpus snap) = true <->
       exists w, seven_day_opus data = Present w).
Proof.
  intros H. exists (normalize data).
  pose proof (try_block_success _ _ H) as Ht.
  split; [exact Ht |].
  split; [unfold fetchClaudeUsage; rewrite Ht; reflexivity |].
  unfold normalize; simpl.
  split; [intros w Hw; rewrite Hw; simpl; apply window_of_present |].
  split; [intros w Hw; rewrite Hw; simpl; apply window_of_present |].
  split.
  { intros w Hw; rewrite Hw. eexists; split; [reflexivity |].
    apply window_of_present. }
  split.
  { destruct (seven_day_opus data); simpl; intros; try reflexivity.
    discriminate. }
  destruct (seven_day_opus data) as [| | w]; simpl; split;
    try discriminate; try (intros [w' Hw']; discriminate).
  - intros _. exists w; reflexivity.
  - reflexivity.
Qed.

(** C10.  For a success payload in which [five_hour] or [seven_day] is
    absent altogether (or null), the fetcher still does not throw: it
    returns a snapshot in which that window has utilization [0] and no
    reset instant. *)
Theorem normalize_missing_window
    (o : FetchOutcome) (data : ClaudeUsageApiResponse) :
  success_payload o = Some data ->
  exists snap : ClaudeUsageData,
    try_block o = Normal (Some snap) /\
    fetchClaudeUsage o = (Some snap, []) /\
    (nullish (five_hour data) = true ->
       fiveHour snap = {| utilization := 0%Q; resetsAt := None |}) /\
    (nullish (seven_day data) = true ->
       sevenDay snap = {| utilization := 0%Q; resetsAt := None |}).
Proof.
  intros H. exists (normalize data).
  pose proof (try_block_success _ _ H) as Ht.
  split; [exact Ht |].
  split; [unfold fetchClaudeUsage; rewrite Ht; reflexivity |].
  unfold normalize; simpl.
  split.
  - destruct (five_hour data); simpl; intros; try reflexivity; discriminate.
  - destruct (seven_day data); simpl; intros; try reflexivity; discriminate.
Qed.

End Normalisation.

Example normalize_example :
  normalize example_payload =
  {| fiveHour := {| utilization := 42%Q; resetsAt := Some "T"%string |};
     sevenDay := {| utilization := 0%Q; resetsAt := None |};
     sevenDayOpus := None |}.
Proof. reflexivity. Qed.

Lemma normalize_defaults_and_opus_witness :
  success_payload (success example_payload) = Some example_payload /\
  exists snap : ClaudeUsageData,
    try_block (success example_payload) = Normal (Some snap) /\
    fetchClaudeUsage (success example_payload) = (Some snap, []) /\
    (forall w, five_hour example_payload = Present w ->
       window_of w (fiveHour snap)) /\
    (forall w, seven_day example_payload = Present w ->
       window_of w (sevenDay snap)) /\
    (forall w, seven_day_opus example_payload = Present w ->
       exists u, sevenDayOpus snap = Some u /\ window_of w u) /\
    (nullish (seven_day_opus example_payload) = true ->
       sevenDayOpus snap = None) /\
    (is_some (sevenDayOpus snap) = true <->
       exists w, seven_day_opus example_payload = Present w).
Proof.
  split; [reflexivity |].
  apply (normalize_defaults_and_opus (success example_payload) example_payload).
  reflexivity.
Defined.

Lemma normalize_missing_window_witness :
  success_payload (success empty_payload) = Some empty_payload /\
  exists snap : ClaudeUsageData,
    try_block (success empty_payload) = Normal (Some snap) /\
    fetchClaudeUsage (success empty_payload) = (Some snap, []) /\
    (nullish (five_hour empty_payload) = true ->
       fiveHour snap = {| utilization := 0%Q; resetsAt := None |}) /\
    (nullish (seven_day empty_payload) = true ->
       sevenDay snap = {| utilization := 0%Q; resetsAt := None |}).
Proof.
  split; [reflexivity |].
  apply (normalize_missing_window (success empty_payload) empty_payload).
  reflexivity.
Defined.

(* ------------------------------------------------------------------ *)
(** ** Outcome classification, through one fetch cycle of the hook *)

Section Classification.

Lemma cycle_resolved (o : FetchOutcome) (h : Hook) :
  usage (cycle o h) = fst (fetchClaudeUsage o) /\
  isAvailable (cycle o h) = is_some (fst (fetchClaudeUsage o)) /\
  isLoading (cycle o h) = false /\
  console (cycle o h) = console h ++ snd (fetchClaudeUsage o).
Proof.
  unfold cycle, getClaudeUsage.
  destruct (fetchClaudeUsage o) as [data out]; simpl.
  destruct data; simpl; auto.
Qed.

Lemma transport_failure_throws (o : FetchOutcome) :
  transport_failure o = true -> exists e, try_block o = Throw e.
Proof.
  destruct o as [msg | r]; simpl.
  - intros _. eexists; reflexivity.
  - intros H. apply andb_true_iff in H as [Hok Hb].
    rewrite Hok; simpl. unfold json.
    destruct (body r); try discriminate. eexists; reflexivity.
Qed.

Lemma other_http_error_throws (o : FetchOutcome) :
  other_http_error o = true ->
  exists r, o = Responded r /\ try_block o = Throw (UsageApiError (status r)).
Proof.
  destruct o as [msg | r]; simpl; [discriminate |].
  intros H. apply andb_true_iff in H as [H H403].
  apply andb_true_iff in H as [Hok H401].
  exists r. split; [reflexivity |].
  rewrite Hok.
  apply negb_true_iff in H401, H403. rewrite H401, H403. reflexivity.
Qed.

(** C5.  A response with status 401 or 403 is an ordinary outcome: the
    [try] block completes normally with [null], nothing is written to the
    console by the fetcher or by the hook, and the cycle leaves the hook
    unavailable. *)
Theorem not_eligible_is_unavailable (o : FetchOutcome) (h : Hook) :
  not_eligible o = true ->
  try_block o = Normal None /\
  fetchClaudeUsage o = (None, []) /\
  isAvailable (cycle o h) = false /\
  usage (cycle o h) = None /\
  console (cycle o h) = console h.
Proof.
  intros H.
  assert (Ht : try_block o = Normal None).
  { destruct o as [msg | r]; simpl in *; [discriminate |].
    assert (Hok : ok r = false).
    { unfold ok. apply orb_true_iff in H as [H | H];
        apply Z.eqb_eq in H; rewrite H; reflexivity. }
    rewrite Hok; simpl. rewrite orb_comm, H. reflexivity. }
  assert (Hf : fetchClaudeUsage o = (None, [])).
  { unfold fetchClaudeUsage. rewrite Ht. reflexivity. }
  destruct (cycle_resolved o h) as (Hu & Ha & _ & Hc).
  rewrite Hf in Hu, Ha, Hc; simpl in *.
  rewrite app_nil_r in Hc. auto.
Qed.

(** C1, as the code has it.  When the transport fails, the fetcher does
    not throw: it writes one error-level entry and returns [null]; the
    cycle then stores a null snapshot and sets availability to false. *)
Theorem transport_failure_clears (o : FetchOutcome) (h : Hook) :
  transport_failure o = true ->
  (exists e,
     fetchClaudeUsage o =
     (None, [mkLog LvlError "[claude-usage] Failed to fetch usage:" e])) /\
  usage (cycle o h) = None /\
  isAvailable (cycle o h) = false /\
  isLoading (cycle o h) = false.
Proof.
  intros H. destruct (transport_failure_throws o H) as [e He].
  assert (Hf : fetchClaudeUsage o =
               (None, [mkLog LvlError "[claude-usage] Failed to fetch usage:" e])).
  { unfold fetchClaudeUsage. rewrite He. reflexivity. }
  destruct (cycle_resolved o h) as (Hu & Ha & Hl & _).
  rewrite Hf in Hu, Ha; simpl in *.
  split; [exists e; exact Hf | auto].
Qed.

(** C2, as the code has it.  A non-success status other than 401 and 403
    makes the fetcher throw inside its [try]; its [catch] writes one
    error-level entry naming the status and returns [null]; the cycle then
    stores a null snapshot and sets availability to false. *)
Theorem other_status_logged_and_cleared (o : FetchOutcome) (h : Hook) :
  other_http_error o = true ->
  (exists r,
     o = Responded r /\
     fetchClaudeUsage o =
     (None, [mkLog LvlError "[claude-usage] Failed to fetch usage:"
               (UsageApiError (status r))])) /\
  Forall (fun e => is_error e = true) (snd (fetchClaudeUsage o)) /\
  usage (cycle o h) = None /\
  isAvailable (cycle o h) = false.
Proof.
  intros H. destruct (other_http_error_throws o H) as (r & Ho & He).
  assert (Hf : fetchClaudeUsage o =
               (None, [mkLog LvlError "[claude-usage] Failed to fetch usage:"
                         (UsageApiError (status r))])).
  { unfold fetchClaudeUsage. rewrite He. reflexivity. }
  destruct (cycle_resolved o h) as (Hu & Ha & _ & _).
  rewrite Hf in Hu, Ha; simpl in *.
  split; [exists r; auto |].
  split; [rewrite Hf; simpl; repeat constructor | auto].
Qed.

End Classification.

Lemma not_eligible_is_unavailable_witness :
  let o := Responded {| status := 403; body := MalformedJson |} in
  not_eligible o = true /\
  try_block o = Normal None /\
  fetchClaudeUsage o = (None, []) /\
  isAvailable (cycle o eligible_hook) = false /\
  usage (cycle o eligible_hook) = None /\
  console (cycle o eligible_hook) = console eligible_hook.
Proof.
  split; [reflexivity |].
  apply (not_eligible_is_unavailable
           (Responded {| status := 403; body := MalformedJson |}) eligible_hook).
  reflexivity.
Defined.

(** C1, as the spec states it, fails: a hook that holds a snapshot and
    reports availability loses both in a cycle whose [fetch] rejects. *)
Lemma transport_failure_demotes :
  let o := NetworkError "timeout" in
  transport_failure o = true /\
  is_some (usage eligible_hook) = true /\
  isAvailable eligible_hook = true /\
  usage (cycle o eligible_hook) <> usage eligible_hook /\
  isAvailable (cycle o eligible_hook) <> isAvailable eligible_hook.
Proof.
  repeat split; try reflexivity; discriminate.
Qed.

Lemma transport_failure_clears_witness :
  let o := NetworkError "timeout" in
  transport_failure o = true /\
  (exists e,
     fetchClaudeUsage o =
     (None, [mkLog LvlError "[claude-usage] Failed to fetch usage:" e])) /\
  usage (cycle o eligible_hook) = None /\
  isAvailable (cycle o eligible_hook) = false /\
  isLoading (cycle o eligible_hook) = false.
Proof.
  split; [reflexivity |].
  apply (transport_failure_clears (NetworkError "timeout") eligible_hook).
  reflexivity.
Defined.

(** C2, as the spec states it, fails: a hook that holds a snapshot and
    reports availability loses both in a cycle answered with status 500. *)
Lemma status_500_clears_snapshot :
  let o := Responded {| status := 500; body := MalformedJson |} in
  other_http_error o = true /\
  is_some (usage eligible_hook) = true /\
  isAvailable eligible_hook = true /\
  usage (cycle o eligible_hook) <> usage eligible_hook /\
  isAvailable (cycle o eligible_hook) <> isAvailable eligible_hook.
Proof.
  repeat split; try reflexivity; discriminate.
Qed.

Lemma other_status_logged_and_cleared_witness :
  let o := Responded {| status := 500; body := MalformedJson |} in
  other_http_error o = true /\
  (exists r,
     o = Responded r /\
     fetchClaudeUsage o =
     (None, [mkLog LvlError "[claude-usage] Failed to fetch usage:"
               (UsageApiError (status r))])) /\
  Forall (fun e => is_error e = true) (snd (fetchClaudeUsage o)) /\
  usage (cycle o eligible_hook) = None /\
  isAvailable (cycle o eligible_hook) = false.
Proof.
  split; [reflexivity |].
  apply (other_status_logged_and_cleared
           (Responded {| status := 500; body := MalformedJson |}) eligible_hook).
  reflexivity.
Defined.

(* ------------------------------------------------------------------ *)
(** ** The hook's lifecycle *)

Section Lifecycle.

(** Whatever the bridge hands over without data, a resuming call leaves
    the hook without snapshot and unavailable. *)
Lemma resume_cells (b : BridgeOutcome) (h : Hook) :
  usage (fetchUsage_resume b h) = snapshot_of b /\
  isAvailable (fetchUsage_resume b h) = is_some (snapshot_of b) /\
  isLoading (fetchUsage_resume b h) = false.
Proof.
  destruct b as [[d |] | e]; simpl; auto.
Qed.

Lemma step_isLoading (e : Event) (h h' : Hook) :
  step e h = Some h' ->
  isLoading h' = isLoading h && negb (is_settle e).
Proof.
  destruct e as [| | t | | b]; simpl.
  - intros [= <-]. unfold effect; simpl. now rewrite andb_true_r.
  - intros [= <-]. unfold cleanup.
    destruct (pollIntervalRef h); simpl; now rewrite andb_true_r.
  - destruct (existsb (Pos.eqb t) (intervals h)); [| discriminate].
    intros [= <-]. simpl. now rewrite andb_true_r.
  - intros [= <-]. simpl. now rewrite andb_true_r.
  - destruct (inFlight h); [discriminate |].
    intros [= <-]. rewrite andb_false_r.
    apply resume_cells.
Qed.

Lemma run_isLoading (es : list Event) :
  forall h h' : Hook,
    run es h = Some h' ->
    isLoading h' = isLoading h && negb (existsb is_settle es).
Proof.
  induction es as [| e es IH]; intros h h'; simpl.
  - intros [= <-]. now rewrite andb_true_r.
  - destruct (step e h) as [h1 |] eqn:Hs; [| discriminate].
    intros Hr. rewrite (IH _ _ Hr), (step_isLoading _ _ _ Hs).
    rewrite negb_orb. now rewrite andb_assoc.
Qed.

(** C9.  The loading flag starts true, and after any sequence of events
    it is true exactly when no call of [fetchUsage] has settled yet: the
    first settlement, whatever its outcome, makes it false, and no later
    start, tick or refresh makes it true again. *)
Theorem loading_only_until_first_settle (es : list Event) (h : Hook) :
  run es initial = Some h ->
  isLoading initial = true /\
  isLoading h = negb (existsb is_settle es).
Proof.
  intros Hr. split; [reflexivity |].
  rewrite (run_isLoading _ _ _ Hr). reflexivity.
Qed.










End Lifecycle.

Lemma loading_only_until_first_settle_witness :
  exists h : Hook,
    run busy_trace initial = Some h /\
    isLoading initial = true /\
    isLoading h = negb (existsb is_settle busy_trace).
Proof.
  eexists. split; [reflexivity |].
  apply (loading_only_until_first_settle busy_trace). reflexivity.
Defined.





(* ------------------------------------------------------------------ *)
(** ** The session statistics *)

Section Ranking.



Lemma sort_insert_perm {A : Type} (cmp : A -> A -> Q) (x : A) (l : list A) :
  Permutation (sort_insert cmp x l) (x :: l).
Proof.
  induction l as [| y l IH]; simpl.
  - apply Permutation_refl.
  - destruct (isPositive (cmp x y)).
    + eapply perm_trans; [apply perm_skip, IH | apply perm_swap].
    + apply Permutation_refl.
Qed.

Lemma sort_perm {A : Type} (cmp : A -> A -> Q) (l : list A) :
  Permutation (sort cmp l) l.
Proof.
  induction l as [| x l IH]; simpl.
  - apply perm_nil.
  - eapply perm_trans; [apply sort_insert_perm | apply perm_skip, IH].
Qed.






Lemma filter_ranked (l : list SessionMeta) :
  filter hasUsageDelta (filter (fun s => negb (truthy_flag (hidden s))) l)
  = filter ranked l.
Proof.
  induction l as [| s l IH]; simpl; [reflexivity |].
  unfold ranked at 1.
  destruct (negb (truthy_flag (hidden s))); simpl; rewrite IH; reflexivity.
Qed.

Lemma In_firstn {A : Type} (n : nat) (l : list A) (x : A) :
  In x (firstn n l) -> In x l.
Proof.
  intros H. rewrite <- (firstn_skipn n l). apply in_or_app. now left.
Qed.


(** C8.  A session flagged hidden contributes to no field of the
    aggregate: entered anywhere in the collection, with any token usage
    and any usage delta, it leaves all six fields as they were. *)
Theorem hidden_session_contributes_nothing
    (m1 m2 : SessionMetaMap) (key : string) (s : SessionMeta) :
  truthy_flag (hidden s) = true ->
  let without := stats (m1 ++ m2) in
  let with_hidden := stats (m1 ++ (key, s) :: m2) in
  AggregateStats.totalSessions with_hidden
    = AggregateStats.totalSessions without /\
  AggregateStats.sessionsWithUsage with_hidden
    = AggregateStats.sessionsWithUsage without /\
  AggregateStats.totalFiveHourDelta with_hidden
    = AggregateStats.totalFiveHourDelta without /\
  AggregateStats.totalSevenDayDelta with_hidden
    = AggregateStats.totalSevenDayDelta without /\
  AggregateStats.totalTokens with_hidden
    = AggregateStats.totalTokens without /\
  AggregateStats.topSessions with_hidden
    = AggregateStats.topSessions without.
Proof.
  intros Hh without with_hidden.
  assert (Heq : with_hidden = without).
  { unfold with_hidden, without, stats, values.
    rewrite !map_app. simpl. rewrite !filter_app. simpl.
    rewrite Hh. simpl. reflexivity. }
  rewrite Heq. repeat split.
Qed.

End Ranking.

Example stats_empty :
  stats [] =
  {| AggregateStats.totalSessions := 0;
     AggregateStats.sessionsWithUsage := 0;
     AggregateStats.totalFiveHourDelta := 0%Q;
     AggregateStats.totalSevenDayDelta := 0%Q;
     AggregateStats.totalTokens := 0;
     AggregateStats.topSessions := [] |}.
Proof. reflexivity. Qed.

Example top_ten_of_twelve :
  map id (AggregateStats.topSessions (stats twelve_sessions)) =
  ["e"; "b"; "i"; "g"; "k"; "c"; "l"; "f"; "j"; "a"]%string.
Proof. reflexivity. Qed.

Example ties_keep_their_order :
  map id (AggregateStats.topSessions (stats tied_sessions)) =
  ["r"; "t"; "p"; "s"]%string.
Proof. reflexivity. Qed.

Lemma hidden_session_contributes_nothing_witness :
  truthy_flag (hidden hidden_session) = true /\
  let without := stats (twelve_sessions ++ tied_sessions) in
  let with_hidden :=
    stats (twelve_sessions ++ ("z"%string, hidden_session) :: tied_sessions) in
  AggregateStats.totalSessions with_hidden
    = AggregateStats.totalSessions without /\
  AggregateStats.sessionsWithUsage with_hidden
    = AggregateStats.sessionsWithUsage without /\
  AggregateStats.totalFiveHourDelta with_hidden
    = AggregateStats.totalFiveHourDelta without /\
  AggregateStats.totalSevenDayDelta with_hidden
    = AggregateStats.totalSevenDayDelta without /\
  AggregateStats.totalTokens with_hidden
    = AggregateStats.totalTokens without /\
  AggregateStats.topSessions with_hidden
    = AggregateStats.topSessions without.
Proof.
  split; [reflexivity |].
  apply (hidden_session_contributes_nothing
           twelve_sessions tied_sessions "z"%string hidden_session).
  reflexivity.
Defined.

(* ================================================================== *)
(** * Further properties of the code *)

(* ------------------------------------------------------------------ *)
(** ** The fetcher, over every outcome of the request *)

Section FetcherOutcomes.



(** X2.  A success status whose body is the JSON value [null] is handled
    like a failed request: reading [data.five_hour] throws inside the
    [try], the fetcher logs the [TypeError] and returns [null], and the
    cycle leaves the hook without snapshot and unavailable. *)
Theorem success_with_null_body (r : Response) (h : Hook) :
  ok r = true ->
  body r = JsonNull ->
  fetchClaudeUsage (Responded r) =
    (None, [mkLog LvlError "[claude-usage] Failed to fetch usage:" TypeError]) /\
  usage (cycle (Responded r) h) = None /\
  isAvailable (cycle (Responded r) h) = false.
Proof.
  intros Hok Hb.
  assert (Hf : fetchClaudeUsage (Responded r) =
               (None, [mkLog LvlError "[claude-usage] Failed to fetch usage:"
                         TypeError])).
  { unfold fetchClaudeUsage, try_block, json. rewrite Hok, Hb. reflexivity. }
  split; [exact Hf |].
  unfold cycle, getClaudeUsage. rewrite Hf. simpl. auto.
Qed.

End FetcherOutcomes.

Lemma success_with_null_body_witness :
  let r := {| status := 200; body := JsonNull |} in
  ok r = true /\ body r = JsonNull /\
  fetchClaudeUsage (Responded r) =
    (None, [mkLog LvlError "[claude-usage] Failed to fetch usage:" TypeError]) /\
  usage (cycle (Responded r) eligible_hook) = None /\
  isAvailable (cycle (Responded r) eligible_hook) = false.
Proof.
  split; [reflexivity |]. split; [reflexivity |].
  apply (success_with_null_body {| status := 200; body := JsonNull |}
           eligible_hook); reflexivity.
Defined.

(* ------------------------------------------------------------------ *)
(** ** The hook, over every trace of events *)

Section HookTraces.

(** A property kept by every step is kept by every run. *)
Lemma run_invariant (P : Hook -> Prop) :
  (forall e h h', step e h = Some h' -> P h -> P h') ->
  forall es h h', run es h = Some h' -> P h -> P h'.
Proof.
  intros Hstep. induction es as [| e es IH]; intros h h'; simpl.
  - intros [= <-]. auto.
  - destruct (step e h) as [h1 |] eqn:Hs; [| discriminate].
    intros Hr Hp. exact (IH _ _ Hr (Hstep _ _ _ Hs Hp)).
Qed.

Ltac step_cases e h H :=
  destruct e as [| | ?t | | ?b]; simpl in H;
  [ injection H as <-
  | injection H as <-
  | destruct (existsb (Pos.eqb t) (intervals h)); [injection H as <- | discriminate]
  | injection H as <-
  | destruct (inFlight h) eqn:?Hfl; [discriminate | injection H as <-] ].

Lemma cleanup_cells (h : Hook) :
  usage (cleanup h) = usage h /\
  isLoading (cleanup h) = isLoading h /\
  isAvailable (cleanup h) = isAvailable h /\
  inFlight (cleanup h) = inFlight h /\
  requests (cleanup h) = requests h /\
  console (cleanup h) = console h /\
  nextHandle (cleanup h) = nextHandle h.
Proof.
  unfold cleanup. destruct (pollIntervalRef h); simpl; auto 10.
Qed.

Lemma step_snapshot_flags (e : Event) (h h' : Hook) :
  step e h = Some h' -> snapshot_flags h -> snapshot_flags h'.
Proof.
  unfold snapshot_flags. intros Hs [Ha Hl].
  step_cases e h Hs.
  - split; assumption.
  - destruct (cleanup_cells h) as (-> & -> & -> & _). split; assumption.
  - split; assumption.
  - split; assumption.
  - destruct (resume_cells b (settled h)) as (-> & -> & ->).
    split; [reflexivity | discriminate].
Qed.

(** X3.  In every state the hook can reach, [isAvailable] is true exactly
    when a snapshot is stored, and while [isLoading] is still true no
    snapshot is stored. *)
Theorem available_iff_snapshot (es : list Event) (h : Hook) :
  run es initial = Some h ->
  isAvailable h = is_some (usage h) /\
  (isLoading h = true -> usage h = None).
Proof.
  intros Hr.
  apply (run_invariant snapshot_flags step_snapshot_flags es initial h Hr).
  split; reflexivity.
Qed.

Lemma step_usage (e : Event) (h h' : Hook) :
  step e h = Some h' ->
  usage h' = match e with
             | Settle b => snapshot_of b
             | _ => usage h
             end.
Proof.
  intros Hs. step_cases e h Hs; try reflexivity.
  - apply cleanup_cells.
  - apply resume_cells.
Qed.

Lemma run_usage (es : list Event) :
  forall (h h' : Hook) (acc : option BridgeOutcome),
    run es h = Some h' ->
    usage h = match acc with Some b => snapshot_of b | None => usage h end ->
    usage h' = match last_settle acc es with
               | Some b => snapshot_of b
               | None => usage h
               end.
Proof.
  induction es as [| e es IH]; intros h h' acc; simpl.
  - intros [= <-] Hacc. destruct acc; [exact Hacc | reflexivity].
  - destruct (step e h) as [h1 |] eqn:Hs; [| discriminate].
    intros Hr Hacc. pose proof (step_usage _ _ _ Hs) as Hu.
    destruct e as [| | t | | b];
      try (rewrite (IH h1 h' acc Hr); [rewrite Hu; reflexivity |];
           rewrite Hu; exact Hacc).
    rewrite (IH h1 h' (Some b) Hr); [| exact Hu].
    destruct (last_settle (Some b) es) eqn:Hl; [reflexivity |].
    exfalso. clear -Hl. revert b Hl.
    induction es as [| e es IH]; intros b; simpl; [discriminate |].
    destruct e; apply IH.
Qed.

(** X4.  Overlapping fetches are not ordered: whatever calls are in
    flight, the snapshot the hook stores is the one brought by the call
    that settled last (and none before the first settlement). *)
Theorem last_settlement_wins (es : list Event) (h : Hook) :
  run es initial = Some h ->
  usage h = match last_settle None es with
            | Some b => snapshot_of b
            | None => None
            end.
Proof.
  intros Hr. exact (run_usage es initial h None Hr eq_refl).
Qed.

Lemma step_accounting (e : Event) (h h' : Hook) :
  step e h = Some h' ->
  requests h' = ((if is_call e then 1 else 0) + requests h)%nat /\
  (inFlight h' + (if is_settle e then 1 else 0))%nat =
  ((if is_call e then 1 else 0) + inFlight h)%nat.
Proof.
  intros Hs. step_cases e h Hs; simpl; try (split; lia).
  - destruct (cleanup_cells h) as (_ & _ & _ & -> & -> & _). split; lia.
  - destruct b as [[d |] | err]; simpl; rewrite Hfl; simpl; split; lia.
Qed.

(** X5.  Every call of [fetchUsage] (by a start, a tick or a refresh)
    makes exactly one bridge request, and each request is either still in
    flight or has settled: requests = calls = in flight + settled. *)
Theorem request_accounting (es : list Event) (h : Hook) :
  run es initial = Some h ->
  requests h = List.length (filter is_call es) /\
  (inFlight h + List.length (filter is_settle es))%nat = requests h.
Proof.
  intros Hr.
  assert (G : forall es h0 h,
             run es h0 = Some h ->
             requests h = (List.length (filter is_call es) + requests h0)%nat /\
             (inFlight h + List.length (filter is_settle es))%nat =
             (List.length (filter is_call es) + inFlight h0)%nat).
  { clear. induction es as [| e es IH]; intros h0 h; simpl.
    - intros [= <-]. split; lia.
    - destruct (step e h0) as [h1 |] eqn:Hs; [| discriminate].
      intros Hr. destruct (IH _ _ Hr) as [IH1 IH2].
      destruct (step_accounting _ _ _ Hs) as [S1 S2].
      destruct (is_call e), (is_settle e); simpl in *; split; lia. }
  destruct (G es initial h Hr) as [G1 G2]. simpl in G1, G2. lia.
Qed.

(** X6.  The cleanup is safe to repeat and safe before any start: a second
    cleanup changes nothing, a cleanup of the fresh hook changes nothing,
    and a cleanup never touches the snapshot, the two flags or the calls
    in flight. *)
Theorem cleanup_idempotent (h : Hook) :
  cleanup (cleanup h) = cleanup h /\
  cleanup initial = initial /\
  usage (cleanup h) = usage h /\
  isLoading (cleanup h) = isLoading h /\
  isAvailable (cleanup h) = isAvailable h /\
  inFlight (cleanup h) = inFlight h.
Proof.
  split.
  { unfold cleanup at 2 3.
    destruct (pollIntervalRef h) eqn:Href.
    - reflexivity.
    - unfold cleanup. rewrite Href. reflexivity. }
  split; [reflexivity |].
  destruct (cleanup_cells h) as (-> & -> & -> & -> & _). auto.
Qed.

End HookTraces.

Lemma available_iff_snapshot_witness :
  exists h : Hook,
    run overlap_trace initial = Some h /\
    isAvailable h = is_some (usage h) /\
    (isLoading h = true -> usage h = None).
Proof.
  eexists. split; [reflexivity |].
  apply (available_iff_snapshot overlap_trace). reflexivity.
Defined.

Lemma last_settlement_wins_witness :
  exists h : Hook,
    run overlap_trace initial = Some h /\
    usage h = match last_settle None overlap_trace with
              | Some b => snapshot_of b
              | None => None
              end.
Proof.
  eexists. split; [reflexivity |].
  apply (last_settlement_wins overlap_trace). reflexivity.
Defined.

Lemma request_accounting_witness :
  exists h : Hook,
    run busy_trace initial = Some h /\
    requests h = List.length (filter is_call busy_trace) /\
    (inFlight h + List.length (filter is_settle busy_trace))%nat = requests h.
Proof.
  eexists. split; [reflexivity |].
  apply (request_accounting busy_trace). reflexivity.
Defined.

Section LeakedInterval.





End LeakedInterval.


(* ------------------------------------------------------------------ *)
(** ** What the panels show of the hook *)

Section Panels.

Variable getTime : string -> JsInt.
Variable now : Z.

Lemma no_payload_no_snapshot (o : FetchOutcome) :
  success_payload o = None -> fst (fetchClaudeUsage o) = None.
Proof.
  destruct o as [msg | r]; [reflexivity |].
  unfold success_payload, fetchClaudeUsage, try_block, json.
  destruct (ok r); simpl.
  - destruct (body r); simpl; try reflexivity. discriminate.
  - intros _.
    destruct ((status r =? 403) || (status r =? 401)); reflexivity.
Qed.

Lemma cycle_cells (o : FetchOutcome) (h : Hook) :
  usage (cycle o h) = fst (fetchClaudeUsage o) /\
  isAvailable (cycle o h) = is_some (fst (fetchClaudeUsage o)) /\
  isLoading (cycle o h) = false.
Proof.
  unfold cycle, getClaudeUsage.
  destruct (fetchClaudeUsage o) as [[d |] out]; simpl; auto.
Qed.

(** X8.  In every state the hook can reach, [UsagePanel] never renders
    its skeleton: it renders nothing while the hook is unavailable
    (loading included), and the two bars of the stored snapshot as soon
    as the hook is available. *)
Theorem usage_panel_never_skeleton (es : list Event) (h : Hook) :
  run es initial = Some h ->
  UsagePanel getTime now h <> Skeleton /\
  (isAvailable h = false -> UsagePanel getTime now h = RendersNothing) /\
  (isAvailable h = true ->
     exists u, usage h = Some u /\
       UsagePanel getTime now h =
       Bars [UsageBar getTime now "5h" (fiveHour u);
             UsageBar getTime now "Week" (sevenDay u)]).
Proof.
  intros Hr.
  assert (Hinv : snapshot_flags h).
  { apply (run_invariant snapshot_flags step_snapshot_flags es initial h Hr).
    split; reflexivity. }
  destruct Hinv as [Ha Hl]. unfold UsagePanel. rewrite Ha.
  destruct (usage h) as [u |] eqn:Hu; simpl.
  - destruct (isLoading h) eqn:Hload.
    + specialize (Hl eq_refl). discriminate.
    + simpl. repeat split; try discriminate.
      intros _. exists u. auto.
  - destruct (isLoading h); simpl; repeat split; try discriminate; auto.
Qed.

(** X9.  After a fetch cycle that brought no success payload, whatever
    the reason (rejected request, malformed or null body, status 401, 403,
    500, ...), [AnalyticsPanel] shows its "Subscription Required" screen
    and [UsagePanel] renders nothing, whatever the hook held before. *)
Theorem failed_cycle_shows_subscription_required
    (o : FetchOutcome) (h : Hook) (m : SessionMetaMap) :
  success_payload o = None ->
  AnalyticsPanel (cycle o h) m = SubscriptionRequired /\
  UsagePanel getTime now (cycle o h) = RendersNothing.
Proof.
  intros Hn. pose proof (no_payload_no_snapshot o Hn) as Hf.
  destruct (cycle_cells o h) as (Hu & Ha & Hl).
  rewrite Hf in Hu, Ha. simpl in Ha.
  unfold AnalyticsPanel, UsagePanel. rewrite Ha, Hl. simpl. auto.
Qed.

(** X10.  After a fetch cycle with a success payload, [AnalyticsPanel]
    shows the dashboard with the normalised five-hour and weekly windows
    and, exactly when the payload has a non-null [seven_day_opus], a
    third bar for Opus; [UsagePanel] shows the five-hour and weekly bars
    only. *)
Theorem successful_cycle_shows_windows
    (o : FetchOutcome) (data : ClaudeUsageApiResponse)
    (h : Hook) (m : SessionMetaMap) :
  success_payload o = Some data ->
  (exists bars summary emptyState,
     AnalyticsPanel (cycle o h) m = Dashboard (Some bars) summary emptyState /\
     summary = stats m /\
     firstn 2 bars = [("5-Hour"%string, fiveHour (normalize data));
                      ("Weekly"%string, sevenDay (normalize data))] /\
     skipn 2 bars = match sevenDayOpus (normalize data) with
                    | Some w => [("Opus"%string, w)]
                    | None => []
                    end /\
     (List.length bars = 3%nat <-> nullish (seven_day_opus data) = false)) /\
  UsagePanel getTime now (cycle o h) =
    Bars [UsageBar getTime now "5h" (fiveHour (normalize data));
          UsageBar getTime now "Week" (sevenDay (normalize data))].
Proof.
  intros Hs.
  assert (Hf : fetchClaudeUsage o = (Some (normalize data), [])).
  { unfold fetchClaudeUsage. rewrite (try_block_success o data Hs). reflexivity. }
  destruct (cycle_cells o h) as (Hu & Ha & Hl).
  rewrite Hf in Hu, Ha. simpl in Hu, Ha.
  unfold AnalyticsPanel, UsagePanel. rewrite Hu, Ha, Hl. simpl.
  split; [| reflexivity].
  do 3 eexists. split; [reflexivity |]. split; [reflexivity |].
  split; [reflexivity |]. split; [reflexivity |].
  destruct (seven_day_opus data); simpl; split; congruence.
Qed.

End Panels.

(* ------------------------------------------------------------------ *)
(** ** The time-until-reset text *)

Section TimeUntilReset.

Variable getTime : string -> JsInt.
Variable now : Z.

Lemma append_empty_r (s t : string) : (s ++ t)%string = ""%string -> t = ""%string.
Proof.
  destruct s; simpl; [auto | discriminate].
Qed.

Lemma format_positive_diff (r : string) (t : Z) :
  truthy_string r = true ->
  getTime r = Int t ->
  now < t ->
  formatTimeUntilReset getTime now (Some r) =
  let diff := t - now in
  if 0 <? diff / 86400000 then
    if 0 <? Z.rem (diff / 3600000) 24
    then (show_Z (diff / 86400000) ++ "d "
         ++ show_Z (Z.rem (diff / 3600000) 24) ++ "h")%string
    else (show_Z (diff / 86400000) ++ "d")%string
  else if 0 <? diff / 3600000 then
    if 0 <? Z.rem (diff / 60000) 60
    then (show_Z (diff / 3600000) ++ "h "
         ++ show_Z (Z.rem (diff / 60000) 60) ++ "m")%string
    else (show_Z (diff / 3600000) ++ "h")%string
  else (show_Z (diff / 60000) ++ "m")%string.
Proof.
  intros Ht Hg Hlt.
  unfold formatTimeUntilReset. rewrite Ht, Hg.
  cbn [negb minus le_num floor_div gt_num remainder show].
  change (1000 * 60 * 60 * 24) with 86400000.
  change (1000 * 60 * 60) with 3600000.
  change (1000 * 60) with 60000.
  destruct (Z.leb_spec (t - now) 0) as [Hle | _]; [lia |].
  reflexivity.
Qed.

(** X11.  For a reset instant in the future the text rounds the remaining
    time down and never overstates it: from one day on it shows days and
    hours (hours below 24, left out when zero) and is short by less than
    an hour; from one hour on it shows hours and minutes (minutes below
    60, left out when zero) and is short by less than a minute; below one
    hour it shows whole minutes, [0m] included. *)
Theorem time_until_reset_rounds_down (r : string) (t : Z) :
  truthy_string r = true ->
  getTime r = Int t ->
  now < t ->
  let diff := t - now in
  let out := formatTimeUntilReset getTime now (Some r) in
  (86400000 <= diff ->
     exists d hh,
       1 <= d /\ 0 <= hh < 24 /\
       (24 * d + hh) * 3600000 <= diff < (24 * d + hh + 1) * 3600000 /\
       out = if 0 <? hh
             then (show_Z d ++ "d " ++ show_Z hh ++ "h")%string
             else (show_Z d ++ "d")%string) /\
  (3600000 <= diff < 86400000 ->
     exists hh mm,
       1 <= hh < 24 /\ 0 <= mm < 60 /\
       (60 * hh + mm) * 60000 <= diff < (60 * hh + mm + 1) * 60000 /\
       out = if 0 <? mm
             then (show_Z hh ++ "h " ++ show_Z mm ++ "m")%string
             else (show_Z hh ++ "h")%string) /\
  (diff < 3600000 ->
     exists mm,
       0 <= mm < 60 /\
       mm * 60000 <= diff < (mm + 1) * 60000 /\
       out = (show_Z mm ++ "m")%string).
Proof.
  intros Ht Hg Hlt diff out.
  assert (Hout : out = _) by exact (format_positive_diff r t Ht Hg Hlt).
  cbv zeta in Hout. fold diff in Hout.
  assert (Hpos : 0 < diff) by (unfold diff; lia).
  clearbody diff out.
  split; [| split].
  - intros Hd.
    exists (diff / 86400000), (Z.rem (diff / 3600000) 24).
    assert (Hday : (0 <? diff / 86400000) = true).
    { apply Z.ltb_lt. Z.div_mod_to_equations. lia. }
    rewrite Hday in Hout.
    rewrite Z.rem_mod_nonneg in * by (try apply Z.div_pos; lia).
    split; [Z.div_mod_to_equations; lia |].
    split; [Z.div_mod_to_equations; lia |].
    split; [Z.div_mod_to_equations; lia | exact Hout].
  - intros Hd.
    exists (diff / 3600000), (Z.rem (diff / 60000) 60).
    assert (Hday : (0 <? diff / 86400000) = false).
    { apply Z.ltb_ge. Z.div_mod_to_equations. lia. }
    assert (Hhour : (0 <? diff / 3600000) = true).
    { apply Z.ltb_lt. Z.div_mod_to_equations. lia. }
    rewrite Hday, Hhour in Hout.
    rewrite Z.rem_mod_nonneg in * by (try apply Z.div_pos; lia).
    split; [Z.div_mod_to_equations; lia |].
    split; [Z.div_mod_to_equations; lia |].
    split; [Z.div_mod_to_equations; lia | exact Hout].
  - intros Hd.
    exists (diff / 60000).
    assert (Hday : (0 <? diff / 86400000) = false).
    { apply Z.ltb_ge. Z.div_mod_to_equations. lia. }
    assert (Hhour : (0 <? diff / 3600000) = false).
    { apply Z.ltb_ge. Z.div_mod_to_equations. lia. }
    rewrite Hday, Hhour in Hout.
    split; [Z.div_mod_to_equations; lia |].
    split; [Z.div_mod_to_equations; lia | exact Hout].
Qed.

(** X12.  The edge cases of the text: it is empty exactly when there is
    no reset instant ([null] or the empty string); an instant that is now
    or in the past gives "resets soon", never a negative duration; and a
    string that is not a date gives "NaNm". *)
Theorem time_until_reset_edges (resetsAt : option string) :
  (formatTimeUntilReset getTime now resetsAt = ""%string <->
     resetsAt = None \/ resetsAt = Some ""%string) /\
  (forall r t, resetsAt = Some r -> truthy_string r = true ->
     getTime r = Int t -> t <= now ->
     formatTimeUntilReset getTime now resetsAt = "resets soon"%string) /\
  (forall r, resetsAt = Some r -> truthy_string r = true ->
     getTime r = NaN ->
     formatTimeUntilReset getTime now resetsAt = "NaNm"%string).
Proof.
  split; [| split].
  - split.
    + destruct resetsAt as [r |]; [| auto].
      destruct r as [| c r]; [auto |].
      intros H. exfalso. revert H.
      unfold formatTimeUntilReset. cbn [truthy_string negb].
      repeat match goal with
             | |- context [if ?b then _ else _] => destruct b
             end;
        intros H; try discriminate H;
        repeat (apply append_empty_r in H); discriminate H.
    + intros [-> | ->]; reflexivity.
  - intros r t -> Ht Hg Hle.
    unfold formatTimeUntilReset. rewrite Ht, Hg.
    cbn [negb minus le_num].
    destruct (Z.leb_spec (t - now) 0); [reflexivity | lia].
  - intros r -> Ht Hg.
    unfold formatTimeUntilReset. rewrite Ht, Hg. reflexivity.
Qed.

End TimeUntilReset.

Lemma time_until_reset_rounds_down_witness :
  let getTime := fun _ : string => Int 90061000 in
  let r := "2026-01-02T01:01:01Z"%string in
  truthy_string r = true /\ getTime r = Int 90061000 /\ 0 < 90061000 /\
  let diff := 90061000 - 0 in
  let out := formatTimeUntilReset getTime 0 (Some r) in
  (86400000 <= diff ->
     exists d hh,
       1 <= d /\ 0 <= hh < 24 /\
       (24 * d + hh) * 3600000 <= diff < (24 * d + hh + 1) * 3600000 /\
       out = if 0 <? hh
             then (show_Z d ++ "d " ++ show_Z hh ++ "h")%string
             else (show_Z d ++ "d")%string) /\
  (3600000 <= diff < 86400000 ->
     exists hh mm,
       1 <= hh < 24 /\ 0 <= mm < 60 /\
       (60 * hh + mm) * 60000 <= diff < (60 * hh + mm + 1) * 60000 /\
       out = if 0 <? mm
             then (show_Z hh ++ "h " ++ show_Z mm ++ "m")%string
             else (show_Z hh ++ "h")%string) /\
  (diff < 3600000 ->
     exists mm,
       0 <= mm < 60 /\
       mm * 60000 <= diff < (mm + 1) * 60000 /\
       out = (show_Z mm ++ "m")%string).
Proof.
  split; [reflexivity |]. split; [reflexivity |]. split; [lia |].
  apply (time_until_reset_rounds_down (fun _ : string => Int 90061000) 0
           "2026-01-02T01:01:01Z"%string 90061000); [reflexivity | reflexivity | lia].
Defined.

Example time_until_reset_examples :
  let getTime := fun s : string =>
    if String.eqb s "day" then Int 90061000
    else if String.eqb s "hour" then Int 3600000
    else if String.eqb s "soon" then Int 59999
    else if String.eqb s "past" then Int (-5)
    else NaN in
  map (formatTimeUntilReset getTime 0)
      [Some "day"; Some "hour"; Some "soon"; Some "past"; Some "junk";
       Some ""; None]%string
  = ["1d 1h"; "1h"; "0m"; "resets soon"; "NaNm"; ""; ""]%string.
Proof. reflexivity. Qed.

Lemma usage_panel_never_skeleton_witness :
  let getTime := fun _ : string => NaN in
  exists h : Hook,
    run overlap_trace initial = Some h /\
    UsagePanel getTime 0 h <> Skeleton /\
    (isAvailable h = false -> UsagePanel getTime 0 h = RendersNothing) /\
    (isAvailable h = true ->
       exists u, usage h = Some u /\
         UsagePanel getTime 0 h =
         Bars [UsageBar getTime 0 "5h" (fiveHour u);
               UsageBar getTime 0 "Week" (sevenDay u)]).
Proof.
  eexists. split; [reflexivity |].
  apply (usage_panel_never_skeleton (fun _ : string => NaN) 0 overlap_trace).
  reflexivity.
Defined.

Lemma failed_cycle_shows_subscription_required_witness :
  let getTime := fun _ : string => NaN in
  let o := NetworkError "timeout" in
  success_payload o = None /\
  AnalyticsPanel (cycle o eligible_hook) twelve_sessions = SubscriptionRequired /\
  UsagePanel getTime 0 (cycle o eligible_hook) = RendersNothing.
Proof.
  split; [reflexivity |].
  apply (failed_cycle_shows_subscription_required (fun _ : string => NaN) 0
           (NetworkError "timeout") eligible_hook twelve_sessions).
  reflexivity.
Defined.

Lemma successful_cycle_shows_windows_witness :
  let getTime := fun _ : string => NaN in
  let o := success example_payload in
  success_payload o = Some example_payload /\
  (exists bars summary emptyState,
     AnalyticsPanel (cycle o initial) twelve_sessions
       = Dashboard (Some bars) summary emptyState /\
     summary = stats twelve_sessions /\
     firstn 2 bars = [("5-Hour"%string, fiveHour (normalize example_payload));
                      ("Weekly"%string, sevenDay (normalize example_payload))] /\
     skipn 2 bars = match sevenDayOpus (normalize example_payload) with
                    | Some w => [("Opus"%string, w)]
                    | None => []
                    end /\
     (List.length bars = 3%nat <->
        nullish (seven_day_opus example_payload) = false)) /\
  UsagePanel getTime 0 (cycle o initial) =
    Bars [UsageBar getTime 0 "5h" (fiveHour (normalize example_payload));
          UsageBar getTime 0 "Week" (sevenDay (normalize example_payload))].
Proof.
  split; [reflexivity |].
  apply (successful_cycle_shows_windows (fun _ : string => NaN) 0
           (success example_payload) example_payload initial twelve_sessions).
  reflexivity.
Defined.

(* ------------------------------------------------------------------ *)
(** ** The usage bar *)

Section UsageBars.

Variable getTime : string -> JsInt.
Variable now : Z.

(** X13.  The bar colour and the text colour of a usage bar always name
    the same band (destructive from 95, info from 80, neutral below), and
    the bar is never drawn wider than 100 percent: its width is the
    utilization itself up to 100 and 100 beyond. *)
Theorem usage_bar_bands_agree (label : string) (w : UsageWindow) :
  let bar := UsageBar getTime now label w in
  let u := utilization w in
  ((95 <= u)%Q /\
     colorClass bar = "bg-destructive"%string /\
     textColorClass bar = "text-destructive"%string
   \/
   (80 <= u < 95)%Q /\
     colorClass bar = "bg-info"%string /\
     textColorClass bar = "text-info"%string
   \/
   (u < 80)%Q /\
     colorClass bar = "bg-accent"%string /\
     textColorClass bar = "text-foreground/60"%string) /\
  (widthPercent bar <= 100)%Q /\
  ((u <= 100)%Q -> (widthPercent bar == u)%Q) /\
  ((100 <= u)%Q -> (widthPercent bar == 100)%Q).
Proof.
  intros bar u. subst bar u. simpl.
  unfold getUtilizationColor, getUtilizationTextColor.
  split.
  - destruct (Qle_bool 95 (utilization w)) eqn:H95.
    + left. apply Qle_bool_iff in H95. auto.
    + assert (utilization w < 95)%Q.
      { apply Qnot_le_lt. intros H. apply Qle_bool_iff in H. congruence. }
      destruct (Qle_bool 80 (utilization w)) eqn:H80.
      * right; left. apply Qle_bool_iff in H80. auto.
      * right; right. split; [| auto].
        apply Qnot_le_lt. intros H'. apply Qle_bool_iff in H'. congruence.
  - split; [apply Q.le_min_r |].
    split; intros H.
    + apply Q.min_l. exact H.
    + apply Q.min_r. exact H.
Qed.

End UsageBars.

(* ------------------------------------------------------------------ *)
(** ** The statistics: counts, totals and the cut at ten *)

Section Totals.

Lemma fold_loop_body (l : list SessionMeta) :
  forall acc : Totals,
    accSessionsWithUsage (fold_left loop_body l acc) =
      (accSessionsWithUsage acc + List.length (filter hasUsageDelta l))%nat /\
    accTokens (fold_left loop_body l acc) =
      accTokens acc + sumZ (map tokensOf l).
Proof.
  induction l as [| s l IH]; intros acc; simpl.
  - split; lia.
  - destruct (IH (loop_body acc s)) as [-> ->].
    unfold loop_body, hasUsageDelta, tokensOf, or0Z.
    destruct (tokenUsage s) as [tu |]; simpl.
    + destruct (Z.eqb_spec (totalTokens tu) 0) as [-> | Hne];
        destruct (usageDelta tu); simpl; split; lia.
    + split; lia.
Qed.



Lemma stats_fields (m : SessionMetaMap) :
  AggregateStats.totalSessions (stats m)
    = List.length (filter visible (values m)) /\
  AggregateStats.sessionsWithUsage (stats m)
    = List.length (filter ranked (values m)) /\
  AggregateStats.totalTokens (stats m)
    = sumZ (map tokensOf (filter visible (values m))) /\
  AggregateStats.topSessions (stats m)
    = firstn 10 (sort compareFn (filter ranked (values m))).
Proof.
  unfold stats; simpl. fold visible.
  destruct (fold_loop_body (filter visible (values m))
              {| accFiveHourDelta := 0%Q; accSevenDayDelta := 0%Q;
                 accTokens := 0; accSessionsWithUsage := 0%nat |}) as [-> ->].
  simpl. unfold visible at 2 4. rewrite filter_ranked.
  unfold slice0. auto.
Qed.

Lemma filter_length_le {A : Type} (f g : A -> bool) (l : list A) :
  (forall x, f x = true -> g x = true) ->
  (List.length (filter f l) <= List.length (filter g l))%nat.
Proof.
  intros Himp. induction l as [| x l IH]; simpl; [lia |].
  destruct (f x) eqn:Hf.
  - rewrite (Himp x Hf). simpl. lia.
  - destruct (g x); simpl; lia.
Qed.

(** X14.  The "with usage data" count is the number of ranking
    candidates (non-hidden sessions with a usage delta); it never exceeds
    the session count; the top list has ten entries or as many as there
    are candidates, whichever is less, so it is empty exactly when the
    count is zero. *)
Theorem stats_counts_agree (m : SessionMetaMap) :
  let s := stats m in
  AggregateStats.sessionsWithUsage s
    = List.length (filter ranked (values m)) /\
  AggregateStats.totalSessions s
    = List.length (filter visible (values m)) /\
  (AggregateStats.sessionsWithUsage s <= AggregateStats.totalSessions s)%nat /\
  List.length (AggregateStats.topSessions s)
    = Nat.min 10 (AggregateStats.sessionsWithUsage s) /\
  (AggregateStats.topSessions s = [] <->
     AggregateStats.sessionsWithUsage s = 0%nat).
Proof.
  intros s. subst s.
  destruct (stats_fields m) as (Ht & Hw & _ & Htop).
  rewrite Ht, Hw, Htop.
  assert (Hlen : List.length (sort compareFn (filter ranked (values m)))
                 = List.length (filter ranked (values m))).
  { apply Permutation_length, sort_perm. }
  split; [reflexivity |]. split; [reflexivity |].
  split.
  { apply filter_length_le. intros x Hx. unfold ranked in Hx.
    apply andb_true_iff in Hx as [Hx _]. exact Hx. }
  split; [rewrite length_firstn, Hlen; reflexivity |].
  split; intros H.
  - apply (f_equal (@List.length _)) in H.
    rewrite length_firstn, Hlen in H.
    change (List.length (@nil SessionMeta)) with 0%nat in H. lia.
  - apply length_zero_iff_nil. rewrite length_firstn, Hlen. lia.
Qed.




End Totals.


(* ------------------------------------------------------------------ *)
(** ** From a row of the top list to the detail page *)

Section DetailPage.

Lemma Map_get_In (m : SessionMetaMap) (k : string) (s : SessionMeta) :
  NoDup (map fst m) -> In (k, s) m -> Map_get k m = Some s.
Proof.
  induction m as [| [k' s'] m IH]; simpl; intros Hnd Hin; [contradiction |].
  apply NoDup_cons_iff in Hnd as [Hnot Hnd].
  destruct Hin as [[= -> ->] | Hin].
  - rewrite String.eqb_refl. reflexivity.
  - destruct (String.eqb_spec k' k) as [-> | Hne].
    + exfalso. apply Hnot. change k with (fst (k, s)). now apply in_map.
    + exact (IH Hnd Hin).
Qed.

(** X17.  In a map keyed by session id, the id of any session shown in
    the top list leads the detail page to that very session, and its
    detail panel then has a Token Usage section: it shows neither the
    "Select a session" state nor the "No token usage data" message. *)
Theorem top_session_opens_its_detail (m : SessionMetaMap) (s : SessionMeta) :
  keyed_by_id m ->
  In s (AggregateStats.topSessions (stats m)) ->
  AnalyticsSessionDetailPage m (id s) = Some s /\
  exists sections,
    SessionDetailPanel (AnalyticsSessionDetailPage m (id s)) = Some sections /\
    tokenSection sections = true /\
    noTokenMessage sections = false.
Proof.
  intros [Hnd Hkey] Hin.
  destruct (stats_fields m) as (_ & _ & _ & Htop). rewrite Htop in Hin.
  apply In_firstn in Hin.
  apply (Permutation_in _ (sort_perm compareFn _)) in Hin.
  apply filter_In in Hin as [Hin Hr].
  unfold values in Hin. apply in_map_iff in Hin as ([k s'] & Hs & Hin).
  simpl in Hs. subst s'.
  rewrite Forall_forall in Hkey. pose proof (Hkey _ Hin) as Hk. simpl in Hk.
  subst k.
  assert (Hget : AnalyticsSessionDetailPage m (id s) = Some s).
  { unfold AnalyticsSessionDetailPage. exact (Map_get_In m (id s) s Hnd Hin). }
  split; [exact Hget |].
  rewrite Hget. unfold SessionDetailPanel.
  unfold ranked, hasUsageDelta in Hr. apply andb_true_iff in Hr as [_ Hr].
  destruct (tokenUsage s) as [tu |]; [| discriminate].
  eexists. split; [reflexivity |]. split; reflexivity.
Qed.

End DetailPage.

Lemma top_session_opens_its_detail_witness :
  let s := session_with "e" 12 in
  keyed_by_id twelve_sessions /\
  In s (AggregateStats.topSessions (stats twelve_sessions)) /\
  AnalyticsSessionDetailPage twelve_sessions (id s) = Some s /\
  exists sections,
    SessionDetailPanel (AnalyticsSessionDetailPage twelve_sessions (id s))
      = Some sections /\
    tokenSection sections = true /\
    noTokenMessage sections = false.
Proof.
  assert (Hk : keyed_by_id twelve_sessions).
  { split.
    - repeat (constructor;
              [simpl; intros H;
               repeat (destruct H as [H | H]; [discriminate H |]); exact H |]).
      constructor.
    - repeat constructor. }
  assert (Hin : In (session_with "e" 12)
                   (AggregateStats.topSessions (stats twelve_sessions))).
  { now left. }
  split; [exact Hk |]. split; [exact Hin |].
  apply (top_session_opens_its_detail twelve_sessions (session_with "e" 12) Hk Hin).
Defined.

(* ------------------------------------------------------------------ *)
(** ** Relative dates *)

Section RelativeDates.

Variable locale : Z -> string.
Variable now : Z.

Ltac by_division := Z.div_mod_to_equations; lia.

(** X18.  [formatRelativeDate] never shows a negative or zero count: a
    missing or zero timestamp gives a dash, anything less than a minute
    old (a timestamp in the future included) gives "Just now", and the
    counted forms carry 1-59 minutes, 1-23 hours or 2-6 days, each the
    age rounded down; one day gives "Yesterday", a week or more the
    calendar date. *)
Theorem relative_date_ranges (timestamp : option Z) :
  let out := formatRelativeDate locale now timestamp in
  ((timestamp = None \/ timestamp = Some 0) -> out = "—"%string) /\
  (forall ts, timestamp = Some ts -> ts <> 0 ->
     let age := now - ts in
     (age < 60000 -> out = "Just now"%string) /\
     (60000 <= age < 3600000 ->
        exists n, 1 <= n < 60 /\ n * 60000 <= age < (n + 1) * 60000 /\
                  out = (show_Z n ++ "m ago")%string) /\
     (3600000 <= age < 86400000 ->
        exists n, 1 <= n < 24 /\ n * 3600000 <= age < (n + 1) * 3600000 /\
                  out = (show_Z n ++ "h ago")%string) /\
     (86400000 <= age < 2 * 86400000 -> out = "Yesterday"%string) /\
     (2 * 86400000 <= age < 7 * 86400000 ->
        exists n, 2 <= n < 7 /\ n * 86400000 <= age < (n + 1) * 86400000 /\
                  out = (show_Z n ++ "d ago")%string) /\
     (7 * 86400000 <= age -> out = locale ts)).
Proof.
  intros out. subst out. split.
  - intros [-> | ->]; reflexivity.
  - intros ts -> Hts age.
    unfold formatRelativeDate.
    destruct (Z.eqb_spec ts 0) as [-> | _]; [contradiction |].
    cbn [minus floor_div lt_num eq_num show].
    change (1000 * 60 * 60 * 24) with 86400000.
    change (1000 * 60 * 60) with 3600000.
    change (1000 * 60) with 60000.
    fold age. clearbody age.
    destruct (Z.ltb_spec (age / 60000) 1) as [H1 | H1];
      [repeat split; intros; try reflexivity; exfalso; by_division |].
    destruct (Z.ltb_spec (age / 60000) 60) as [H2 | H2].
    { repeat split; intros; try (exfalso; by_division).
      exists (age / 60000). repeat split; try by_division. }
    destruct (Z.ltb_spec (age / 3600000) 24) as [H3 | H3].
    { repeat split; intros; try (exfalso; by_division).
      exists (age / 3600000). repeat split; try by_division. }
    destruct (Z.eqb_spec (age / 86400000) 1) as [H4 | H4];
      [repeat split; intros; try reflexivity; exfalso; by_division |].
    destruct (Z.ltb_spec (age / 86400000) 7) as [H5 | H5].
    { repeat split; intros; try (exfalso; by_division).
      exists (age / 86400000). repeat split; try by_division. }
    repeat split; intros; try reflexivity; exfalso; by_division.
Qed.

(** X19.  [formatDate] gives "Today" for an age under one day,
    "Yesterday" for one day, a count of 2-6 days, and the calendar date
    from a week on; a timestamp in the future is not caught by any of
    these and is rendered with a negative day count. *)
Theorem format_date_ranges (timestamp : Z) :
  let out := formatDate locale now timestamp in
  let age := now - timestamp in
  (0 <= age < 86400000 -> out = "Today"%string) /\
  (86400000 <= age < 2 * 86400000 -> out = "Yesterday"%string) /\
  (2 * 86400000 <= age < 7 * 86400000 ->
     exists n, 2 <= n < 7 /\ n * 86400000 <= age < (n + 1) * 86400000 /\
               out = (show_Z n ++ "d ago")%string) /\
  (7 * 86400000 <= age -> out = locale timestamp) /\
  (age < 0 ->
     exists n, n <= -1 /\ n * 86400000 <= age < (n + 1) * 86400000 /\
               out = (show_Z n ++ "d ago")%string).
Proof.
  intros out age. subst out.
  unfold formatDate.
  cbn [minus floor_div lt_num eq_num show].
  change (1000 * 60 * 60 * 24) with 86400000.
  fold age. clearbody age.
  destruct (Z.eqb_spec (age / 86400000) 0) as [H0 | H0];
    [repeat split; intros; try reflexivity; exfalso; by_division |].
  destruct (Z.eqb_spec (age / 86400000) 1) as [H1 | H1];
    [repeat split; intros; try reflexivity; exfalso; by_division |].
  destruct (Z.ltb_spec (age / 86400000) 7) as [H7 | H7].
  - repeat split; intros; try (exfalso; by_division);
      exists (age / 86400000); repeat split; try by_division.
  - repeat split; intros; try reflexivity; exfalso; by_division.
Qed.

End RelativeDates.

Example relative_date_examples :
  let locale := fun _ : Z => "Jan 1"%string in
  map (formatRelativeDate locale 1000000000)
      [None; Some 0; Some 1000000500; Some 999940000; Some 996400000;
       Some 913600000; Some 827200000; Some 1]
  = ["—"; "—"; "Just now"; "1m ago"; "1h ago"; "Yesterday"; "2d ago";
     "Jan 1"]%string /\
  map (formatDate locale 1000000000)
      [1000000000; 913600000; 827200000; 1; 1000000001; 1086400001]
  = ["Today"; "Yesterday"; "2d ago"; "Jan 1"; "-1d ago"; "-2d ago"]%string.
Proof. split; reflexivity. Qed.

(* ------------------------------------------------------------------ *)
(** ** The delta text of the summary cards and rows *)

Section DeltaText.

(** X20.  [formatDelta] gives "0%" exactly for a delta of zero; every
    other delta, a negative one included, is shown with a leading plus
    sign and rounded to the nearest integer, a tie going up, so that a
    small non-zero delta reads "+0%". *)
Theorem format_delta_rounds (delta : Q) :
  (formatDelta delta = "0%"%string <-> (delta == 0)%Q) /\
  (~ (delta == 0)%Q ->
     exists n : Z,
       formatDelta delta = ("+" ++ show_Z n ++ "%")%string /\
       (inject_Z n - (1 # 2) <= delta < inject_Z n + (1 # 2))%Q).
Proof.
  unfold formatDelta. split.
  - destruct (Qeq_bool delta 0) eqn:H.
    + apply Qeq_bool_iff in H. split; auto.
    + split; [discriminate |].
      intros H'. apply Qeq_bool_iff in H'. congruence.
  - intros Hne.
    destruct (Qeq_bool delta 0) eqn:H;
      [apply Qeq_bool_iff in H; contradiction |].
    exists (Math_round delta). split; [reflexivity |].
    unfold Math_round.
    pose proof (Qfloor_le (delta + (1 # 2))) as Hlo.
    pose proof (Qlt_floor (delta + (1 # 2))) as Hhi.
    rewrite inject_Z_plus in Hhi.
    change (inject_Z 1) with 1%Q in Hhi.
    set (n := inject_Z (Qfloor (delta + (1 # 2)))) in *.
    split; lra.
Qed.

End DeltaText.

Example format_delta_examples :
  map formatDelta [0; 0 # 7; 1 # 4; 1 # 2; 5 # 2; 12; - (1 # 4); - (3 # 2); -2]%Q
  = ["0%"; "0%"; "+0%"; "+1%"; "+3%"; "+12%"; "+0%"; "+-1%"; "+-2%"]%string.
Proof. reflexivity. Qed.
